(** * Nova admin client (nova/adminclient.py): typed decoding of query
    responses and the facade built on it.

    The records [UserInfo], [ProjectInfo] and [HostInfo] are Python attribute
    bags filled by the SAX callbacks [startElement] / [endElement]; the
    facade [NovaAdminClient] binds each operation to an action name, a
    parameter dictionary and a result shape. *)

From Stdlib Require Import NArith Ascii String List Lia.
From Stdlib.Strings Require Import Byte.
From stdpp Require Import gmap strings list fin_maps.

Open Scope string_scope.

(** ** Python exceptions that the modelled code can raise *)

Inductive py_error : Type :=
  | AttributeError (owner attr : string)
      (* '<owner>' object has no attribute '<attr>' *)
  | Base64Error (msg : string)
      (* base64.b64decode on text that is not padded correctly *)
  | TransportFailure (info : string)
      (* the query transport did not deliver a response *)
  | MalformedResponse
      (* the response body is not well-formed XML *)
  | MissingStatus
      (* a status-shaped response without its status element *)
  | TypeError (msg : string).
      (* a value of the wrong kind for an attribute, or a keyword given
         twice in a call *)

(** A call either raises or returns. *)
Definition result (A : Type) : Type := (py_error + A)%type.

Definition rmap {A B : Type} (f : A -> B) (r : result A) : result B :=
  match r with
  | inl e => inl e
  | inr a => inr (f a)
  end.

Definition rbind {A B : Type} (r : result A) (k : A -> result B) : result B :=
  match r with
  | inl e => inl e
  | inr a => k a
  end.

(** ** Base64 (Python's [base64] / [binascii]) *)

Module base64.

Open Scope N_scope.

Definition table_b2a_base64 : string :=
  "ABCDEFGHIJKLMNOPQRSTUVWXYZabcdefghijklmnopqrstuvwxyz0123456789+/".

Definition BASE64_PAD : ascii := "="%char.

(** The character of a 6-bit value. *)
Definition b2a_char (v : N) : ascii :=
  match String.get (N.to_nat v) table_b2a_base64 with
  | Some c => c
  | None => BASE64_PAD
  end.

(** The 6-bit value of a character of the alphabet, [None] for every other
    character (the entries of binascii's reverse table that are not a
    sextet). *)
Definition a2b_char (c : ascii) : option N :=
  let n := N_of_ascii c in
  if (65 <=? n) && (n <=? 90) then Some (n - 65)
  else if (97 <=? n) && (n <=? 122) then Some (n - 71)
  else if (48 <=? n) && (n <=? 57) then Some (n + 4)
  else if n =? 43 then Some 62
  else if n =? 47 then Some 63
  else None.

(** Storing an int into an [unsigned char]. *)
Definition byte_of_N (n : N) : byte :=
  default x00 (Byte.of_N (n mod 256)).

(** Modelled from the spec: the spec names base64 only as the encoding of the
    binary field, and Python's [base64] module is not part of the
    repository.  [b64encode] is RFC 4648 with the standard alphabet and
    [=] padding, three bytes to four characters. *)
Fixpoint b64encode (bs : list byte) : string :=
  match bs with
  | [] => ""
  | [a] =>
      let x := Byte.to_N a in
      String (b2a_char (N.shiftr x 2))
        (String (b2a_char (N.shiftl (N.land x 3) 4))
           (String BASE64_PAD (String BASE64_PAD "")))
  | [a; b] =>
      let x := Byte.to_N a in
      let y := Byte.to_N b in
      String (b2a_char (N.shiftr x 2))
        (String (b2a_char (N.lor (N.shiftl (N.land x 3) 4) (N.shiftr y 4)))
           (String (b2a_char (N.shiftl (N.land y 15) 2))
              (String BASE64_PAD "")))
  | a :: b :: c :: rest =>
      let x := Byte.to_N a in
      let y := Byte.to_N b in
      let z := Byte.to_N c in
      String (b2a_char (N.shiftr x 2))
        (String (b2a_char (N.lor (N.shiftl (N.land x 3) 4) (N.shiftr y 4)))
           (String (b2a_char (N.lor (N.shiftl (N.land y 15) 2) (N.shiftr z 6)))
              (String (b2a_char (N.land z 63)) (b64encode rest))))
  end.

(** Modelled from the spec: the decoding side of the same library, as
    [binascii.a2b_base64] runs it when [b64decode] is called without
    validation.  [quad_pos] is the position inside the current group of
    four characters, [leftchar] the bits not yet written, [pads] the number
    of [=] seen since the last sextet.  Characters outside the alphabet are
    skipped; a pad sequence that completes a group ends the decoding; input
    that stops inside a group is an error. *)
Fixpoint a2b_base64 (s : string) (quad_pos leftchar pads : N)
  : result (list byte) :=
  match s with
  | EmptyString =>
      if quad_pos =? 0 then inr [] else inl (Base64Error "Incorrect padding")
  | String this_ch rest =>
      if Ascii.eqb this_ch BASE64_PAD then
        if 2 <=? quad_pos then
          if 4 <=? quad_pos + (pads + 1) then inr []
          else a2b_base64 rest quad_pos leftchar (pads + 1)
        else a2b_base64 rest quad_pos leftchar pads
      else
        match a2b_char this_ch with
        | None => a2b_base64 rest quad_pos leftchar pads
        | Some v =>
            match quad_pos with
            | 0 => a2b_base64 rest 1 v 0
            | 1 =>
                rmap (cons (byte_of_N (N.lor (N.shiftl leftchar 2) (N.shiftr v 4))))
                  (a2b_base64 rest 2 (N.land v 15) 0)
            | 2 =>
                rmap (cons (byte_of_N (N.lor (N.shiftl leftchar 4) (N.shiftr v 2))))
                  (a2b_base64 rest 3 (N.land v 3) 0)
            | _ =>
                rmap (cons (byte_of_N (N.lor (N.shiftl leftchar 6) v)))
                  (a2b_base64 rest 0 0 0)
            end
        end
  end.

Definition b64decode (s : string) : result (list byte) :=
  a2b_base64 s 0 0 0.

End base64.

(** ** Python values

    Attribute bags and parameter dictionaries hold [None], text, byte
    strings and the connection a record was decoded on.  A connection is
    held by value: the facade never writes to one after construction. *)

Record RegionInfo : Type := {
  region_connection : option unit;
  region_name : string;
  region_endpoint : string
}.

Record connection_of (V : Type) : Type := {
  aws_access_key_id : V;
  aws_secret_access_key : V;
  is_secure : bool;
  conn_region : RegionInfo;
  port : Z;
  path : string;
  APIVersion : option string;
  conn_kwargs : list (string * V)
}.

Arguments aws_access_key_id {V} _.
Arguments aws_secret_access_key {V} _.
Arguments is_secure {V} _.
Arguments conn_region {V} _.
Arguments port {V} _.
Arguments path {V} _.
Arguments APIVersion {V} _.
Arguments conn_kwargs {V} _.

#[warnings="-register-all"]
Inductive pyval : Type :=
  | PyNone
  | PyStr (s : string)
  | PyBytes (bs : list byte)
  | PyConn (c : connection_of pyval).

Abbreviation connection := (connection_of pyval).

(** [v != None] *)
Definition py_ne_None (v : pyval) : bool :=
  match v with
  | PyNone => false
  | _ => true
  end.

(** [str(value)] on the character data of an element: the text itself.
    Text is a string of 8-bit characters here; a code point that [str]
    cannot render in such a string is outside this model. *)
Definition py_str (value : string) : string := value.

(** ** Records: UserInfo, ProjectInfo, HostInfo

    An instance is its class and its [__dict__].  The decoder reaches the
    callbacks through the class of the record. *)

Inductive record_class : Type := UserInfo | ProjectInfo | HostInfo.

Record pyobject : Type := {
  ob_type : record_class;
  ob_dict : gmap string pyval
}.

Definition class_name (c : record_class) : string :=
  match c with
  | UserInfo => "UserInfo"
  | ProjectInfo => "ProjectInfo"
  | HostInfo => "HostInfo"
  end.

(** [self.name = v] *)
Definition setattr (self : pyobject) (name : string) (v : pyval) : pyobject :=
  {| ob_type := ob_type self; ob_dict := <[name := v]> (ob_dict self) |}.

(** [self.name] *)
Definition getattr (self : pyobject) (name : string) : result pyval :=
  match ob_dict self !! name with
  | Some v => inr v
  | None => inl (AttributeError (class_name (ob_type self)) name)
  end.

(** [x.name] where [x] may be [None] *)
Definition getattr_opt (x : option pyobject) (name : string) : result pyval :=
  match x with
  | Some self => getattr self name
  | None => inl (AttributeError "NoneType" name)
  end.

(** [setattr(self, name, v)] with a name that is not known beforehand and a
    text [v].  Three names are not plain entries of the instance dictionary:
    [__class__] accepts a class only and [__dict__] a dictionary only, and
    [__weakref__] is not writable. *)
Definition py_setattr (self : pyobject) (name : string) (v : pyval)
  : result pyobject :=
  if decide (name = "__class__") then
    inl (TypeError "__class__ must be set to a class")
  else if decide (name = "__dict__") then
    inl (TypeError "__dict__ must be set to a dictionary")
  else if decide (name = "__weakref__") then
    inl (AttributeError (class_name (ob_type self)) "__weakref__")
  else inr (setattr self name v).

Definition UserInfo__init__ (connection username endpoint : pyval) : pyobject :=
  setattr (setattr (setattr {| ob_type := UserInfo; ob_dict := ∅ |}
    "connection" connection) "username" username) "endpoint" endpoint.

Definition ProjectInfo__init__ (connection projectname endpoint : pyval)
  : pyobject :=
  setattr (setattr (setattr {| ob_type := ProjectInfo; ob_dict := ∅ |}
    "connection" connection) "projectname" projectname) "endpoint" endpoint.

Definition HostInfo__init__ (connection : pyval) : pyobject :=
  setattr (setattr {| ob_type := HostInfo; ob_dict := ∅ |}
    "connection" connection) "hostname" PyNone.

Definition UserInfo_startElement (self : pyobject) (name : string)
  (attrs : list (string * string)) (connection : pyval) : option pyobject :=
  None.

Definition UserInfo_endElement (self : pyobject) (name value : string)
  (connection : pyval) : result pyobject :=
  if decide (name = "username") then
    inr (setattr self "username" (PyStr (py_str value)))
  else if decide (name = "file") then
    rbind (base64.b64decode (py_str value))
      (fun bs => inr (setattr self "file" (PyBytes bs)))
  else if decide (name = "accesskey") then
    inr (setattr self "accesskey" (PyStr (py_str value)))
  else if decide (name = "secretkey") then
    inr (setattr self "secretkey" (PyStr (py_str value)))
  else inr self.

Definition ProjectInfo_startElement (self : pyobject) (name : string)
  (attrs : list (string * string)) (connection : pyval) : option pyobject :=
  None.

Definition ProjectInfo_endElement (self : pyobject) (name value : string)
  (connection : pyval) : result pyobject :=
  py_setattr self name (PyStr (py_str value)).

Definition HostInfo_startElement (self : pyobject) (name : string)
  (attrs : list (string * string)) (connection : pyval) : option pyobject :=
  None.

Definition HostInfo_endElement (self : pyobject) (name value : string)
  (connection : pyval) : result pyobject :=
  py_setattr self name (PyStr value).

(** Calling a class with the connection as its only argument, the other
    parameters at their defaults, and the two callbacks through the
    instance's class. *)
Definition new (cls : record_class) (connection : pyval) : pyobject :=
  match cls with
  | UserInfo => UserInfo__init__ connection PyNone PyNone
  | ProjectInfo => ProjectInfo__init__ connection PyNone PyNone
  | HostInfo => HostInfo__init__ connection
  end.

Definition startElement (self : pyobject) (name : string)
  (attrs : list (string * string)) (connection : pyval) : option pyobject :=
  match ob_type self with
  | UserInfo => UserInfo_startElement self name attrs connection
  | ProjectInfo => ProjectInfo_startElement self name attrs connection
  | HostInfo => HostInfo_startElement self name attrs connection
  end.

Definition endElement (self : pyobject) (name value : string)
  (connection : pyval) : result pyobject :=
  match ob_type self with
  | UserInfo => UserInfo_endElement self name value connection
  | ProjectInfo => ProjectInfo_endElement self name value connection
  | HostInfo => HostInfo_endElement self name value connection
  end.

(** ** The response stream and the three result shapes *)

Inductive sax_event : Type :=
  | StartElement (name : string) (attrs : list (string * string))
  | EndElement (name : string) (value : string).

(** Modelled from the spec: the decoding loop lives in the query library,
    which is not part of the repository.  [decode_single] walks the stream of
    start and end-with-text events over a fresh instance of the record class:
    a start event that opens no nested record is no action, an end event is
    handed to the record's [endElement]; the populated instance is returned
    when the stream is exhausted, and an exception of a callback ends the
    decoding. *)
Fixpoint feed (self : pyobject) (connection : pyval) (stream : list sax_event)
  : result pyobject :=
  match stream with
  | [] => inr self
  | StartElement name attrs :: rest =>
      let _ := startElement self name attrs connection in
      feed self connection rest
  | EndElement name value :: rest =>
      rbind (endElement self name value connection)
        (fun self' => feed self' connection rest)
  end.

Definition decode_single (stream : list sax_event) (cls : record_class)
  (connection : pyval) : result pyobject :=
  feed (new cls connection) connection stream.

(** The record class of a tag among the markers [(tag, class)] of a list
    shape. *)
Fixpoint marker_class (markers : list (string * record_class)) (name : string)
  : option record_class :=
  match markers with
  | [] => None
  | (tag, cls) :: rest =>
      if decide (name = tag) then Some cls else marker_class rest name
  end.

(** Modelled from the spec: [decode_list] treats every item element that is
    not inside another record as the boundary of one record: its start event
    opens a fresh instance and the end event that closes it hands the record
    over; the events in between, those of nested elements included whatever
    their names, are routed to that instance as in [decode_single]; events
    outside every record are passed over.  The records come in document
    order.  [current] is the record being filled, with the number of
    elements open inside it.  A stream that ends inside a record is not the
    stream of a well-formed document. *)
Fixpoint decode_items (markers : list (string * record_class))
  (connection : pyval) (current : option (pyobject * nat))
  (stream : list sax_event) : result (list pyobject) :=
  match stream with
  | [] =>
      match current with
      | None => inr []
      | Some _ => inl MalformedResponse
      end
  | StartElement name attrs :: rest =>
      match current with
      | Some (self, depth) =>
          let _ := startElement self name attrs connection in
          decode_items markers connection (Some (self, S depth)) rest
      | None =>
          match marker_class markers name with
          | Some cls =>
              decode_items markers connection
                (Some (new cls connection, 0)) rest
          | None => decode_items markers connection None rest
          end
      end
  | EndElement name value :: rest =>
      match current with
      | None => decode_items markers connection None rest
      | Some (self, 0) =>
          rmap (cons self) (decode_items markers connection None rest)
      | Some (self, S depth) =>
          rbind (endElement self name value connection)
            (fun self' =>
               decode_items markers connection (Some (self', depth)) rest)
      end
  end.

Definition decode_list (stream : list sax_event)
  (markers : list (string * record_class)) (connection : pyval)
  : result (list pyobject) :=
  decode_items markers connection None stream.

(** ASCII case normalisation of the status text. *)
Definition lower_char (c : ascii) : ascii :=
  let n := N_of_ascii c in
  if ((65 <=? n) && (n <=? 90))%N then ascii_of_N (n + 32) else c.

Fixpoint lower (s : string) : string :=
  match s with
  | EmptyString => EmptyString
  | String c rest => String (lower_char c) (lower rest)
  end.

(** The text of the first [return] element of the stream. *)
Fixpoint status_text (stream : list sax_event) : option string :=
  match stream with
  | [] => None
  | StartElement _ _ :: rest => status_text rest
  | EndElement name value :: rest =>
      if decide (name = "return") then Some value else status_text rest
  end.

(** Modelled from the spec: [decode_status] looks for the [return] element;
    its text, case-normalised, is the status; a stream without the element
    is an error, not [false]. *)
Definition decode_status (stream : list sax_event) : result bool :=
  match status_text stream with
  | Some value => inr (bool_decide (lower value = "true"))
  | None => inl MissingStatus
  end.

(** ** The client object and the query transport *)

Record NovaAdminClient : Type := {
  clc_ip : string;
  region : string;
  access : string;
  secret : string;
  apiconn : connection
}.

(** What the transport is asked to do, in order: a connection is configured,
    or a named operation with its parameters is sent over a connection. *)
Inductive wire_event : Type :=
  | Connected (c : connection)
  | Requested (c : connection) (action : string) (params : gmap string pyval).

(** The path a wire event is addressed to. *)
Definition event_path (e : wire_event) : string :=
  match e with
  | Connected c => path c
  | Requested c _ _ => path c
  end.

(** What comes back from a request. *)
Inductive response : Type :=
  | NoResponse (info : string)
  | NotWellFormed
  | Document (stream : list sax_event).

(** The remote service: what it answers to a request, given everything the
    transport has done before. *)
Abbreviation remote :=
  (list wire_event -> connection -> string -> gmap string pyval -> response).

(** The state a method runs in: the client instance [self] and the
    transport activity so far. *)
Record world : Type := {
  this : NovaAdminClient;
  wire : list wire_event
}.

(** A method body: it may raise, and it may leave the world changed either
    way. *)
Definition M (A : Type) : Type := world -> result A * world.

Definition ret {A : Type} (a : A) : M A := fun w => (inr a, w).

Definition bind {A B : Type} (m : M A) (k : A -> M B) : M B :=
  fun w =>
    match m w with
    | (inl e, w') => (inl e, w')
    | (inr a, w') => k a w'
    end.

Definition throw {A : Type} (e : py_error) : M A := fun w => (inl e, w).

Definition lift {A : Type} (r : result A) : M A := fun w => (r, w).

Definition get_self : M NovaAdminClient := fun w => (inr (this w), w).

Definition emit (e : wire_event) : M unit :=
  fun w => (inr tt, {| this := this w; wire := wire w ++ [e] |}).

Declare Scope py_scope.
Delimit Scope py_scope with py.
Notation "x <- m ;; k" := (bind m (fun x => k))
  (at level 100, m at next level, right associativity) : py_scope.
Notation "m ;;; k" := (bind m (fun _ => k))
  (at level 100, right associativity) : py_scope.
Open Scope py_scope.

(** Modelled from the spec: [boto.connect_ec2] is the transport's
    constructor; it fixes the credentials, the endpoint (controller address,
    region name, port) and the service path of a connection. *)
Definition ec2_connection (aws_access_key_id aws_secret_access_key : pyval)
  (is_secure : bool) (region : RegionInfo) (port : Z) (path : string)
  (kwargs : list (string * pyval)) : connection :=
  {| aws_access_key_id := aws_access_key_id;
     aws_secret_access_key := aws_secret_access_key;
     is_secure := is_secure;
     conn_region := region;
     port := port;
     path := path;
     APIVersion := None;
     conn_kwargs := kwargs |}.

Definition connect_ec2 (aws_access_key_id aws_secret_access_key : pyval)
  (is_secure : bool) (region : RegionInfo) (port : Z) (path : string)
  (kwargs : list (string * pyval)) : M connection :=
  let c := ec2_connection aws_access_key_id aws_secret_access_key is_secure
             region port path kwargs in
  emit (Connected c) ;;; ret c.

(** The six keywords both calls of [boto.connect_ec2] write out.  A key of
    [**kwargs] that repeats one of them gives the keyword twice, and the
    call raises before the callee runs. *)
Definition connect_keywords : list string :=
  ["aws_access_key_id"; "aws_secret_access_key"; "is_secure"; "region";
   "port"; "path"].

Definition kwargs_clash (kwargs : list (string * pyval)) : bool :=
  existsb (fun kv => bool_decide (fst kv ∈ connect_keywords)) kwargs.

Definition multiple_values : py_error :=
  TypeError "connect_ec2() got multiple values for keyword argument".

(** [conn.APIVersion = v] *)
Definition set_APIVersion (c : connection) (v : string) : connection :=
  {| aws_access_key_id := aws_access_key_id c;
     aws_secret_access_key := aws_secret_access_key c;
     is_secure := is_secure c;
     conn_region := conn_region c;
     port := port c;
     path := path c;
     APIVersion := Some v;
     conn_kwargs := conn_kwargs c |}.

Section Client.

Variable service : remote.

(** One round trip: the request goes on the wire, and the answer is a
    stream of events, a transport failure or a body that is not XML. *)
Definition make_request (conn : connection) (action : string)
  (params : gmap string pyval) : M (list sax_event) :=
  fun w =>
    let w' := {| this := this w;
                 wire := wire w ++ [Requested conn action params] |} in
    match service (wire w) conn action params with
    | NoResponse info => (inl (TransportFailure info), w')
    | NotWellFormed => (inl MalformedResponse, w')
    | Document stream => (inr stream, w')
    end.

(** Modelled from the spec: the three calls of the query transport, one per
    result shape; each is one round trip followed by the decoding of the
    response, with the connection as the back-reference of the records. *)
Definition get_object (conn : connection) (action : string)
  (params : gmap string pyval) (cls : record_class) : M pyobject :=
  stream <- make_request conn action params ;;
  lift (decode_single stream cls (PyConn conn)).

Definition get_list (conn : connection) (action : string)
  (params : gmap string pyval) (markers : list (string * record_class))
  : M (list pyobject) :=
  stream <- make_request conn action params ;;
  lift (decode_list stream markers (PyConn conn)).

Definition get_status (conn : connection) (action : string)
  (params : gmap string pyval) : M bool :=
  stream <- make_request conn action params ;;
  lift (decode_status stream).

(** *** NovaAdminClient *)

(** The client and the transport activity once the constructor has run to
    its end. *)
Definition admin_client (clc_ip region access_key secret_key : string)
  (kwargs : list (string * pyval)) (before : list wire_event) : world :=
  let c := ec2_connection (PyStr access_key) (PyStr secret_key) false
             {| region_connection := None;
                region_name := region;
                region_endpoint := clc_ip |}
             8773 "/services/Admin" kwargs in
  {| this := {| clc_ip := clc_ip;
                region := region;
                access := access_key;
                secret := secret_key;
                apiconn := set_APIVersion c "nova" |};
     wire := before ++ [Connected c] |}.

(** [NovaAdminClient(clc_ip, region, access_key, secret_key, **kwargs)];
    the defaults are ['127.0.0.1'], ['nova'], ['admin'], ['admin'].  The
    constructor raises, and there is no client, when [**kwargs] repeats a
    keyword of its call of [boto.connect_ec2]. *)
Definition NovaAdminClient__init__ (clc_ip region access_key secret_key : string)
  (kwargs : list (string * pyval)) (before : list wire_event) : result world :=
  if kwargs_clash kwargs then inl multiple_values
  else inr (admin_client clc_ip region access_key secret_key kwargs before).

Definition get_user (name : string) : M (option pyobject) :=
  self <- get_self ;;
  user <- get_object (apiconn self) "DescribeUser" {[ "Name" := PyStr name ]}
            UserInfo ;;
  username <- lift (getattr user "username") ;;
  if py_ne_None username then ret (Some user) else ret None.

Definition connection_for (username : string) (kwargs : list (string * pyval))
  : M connection :=
  user <- get_user username ;;
  accesskey <- lift (getattr_opt user "accesskey") ;;
  secretkey <- lift (getattr_opt user "secretkey") ;;
  self <- get_self ;;
  let region := {| region_connection := None;
                   region_name := region self;
                   region_endpoint := clc_ip self |} in
  if kwargs_clash kwargs then throw multiple_values
  else connect_ec2 accesskey secretkey false region 8773 "/services/Cloud"
         kwargs.

Definition get_users : M (list pyobject) :=
  self <- get_self ;;
  get_list (apiconn self) "DescribeUsers" ∅ [("item", UserInfo)].

Definition has_user (username : string) : M bool :=
  user <- get_user username ;;
  ret (match user with Some _ => true | None => false end).

Definition create_user (username : string) : M pyobject :=
  self <- get_self ;;
  get_object (apiconn self) "RegisterUser" {[ "Name" := PyStr username ]}
    UserInfo.

Definition delete_user (username : string) : M pyobject :=
  self <- get_self ;;
  get_object (apiconn self) "DeregisterUser" {[ "Name" := PyStr username ]}
    UserInfo.

Definition modify_user_role (user role : string) (project : pyval)
  (operation : string) (kwargs : list (string * pyval)) : M bool :=
  self <- get_self ;;
  let params : gmap string pyval :=
    <[ "User" := PyStr user ]> (<[ "Role" := PyStr role ]>
      (<[ "Project" := project ]> {[ "Operation" := PyStr operation ]})) in
  get_status (apiconn self) "ModifyUserRole" params.

Definition add_user_role (user role : string) (project : pyval) : M bool :=
  modify_user_role user role project "add" [].

Definition remove_user_role (user role : string) (project : pyval) : M bool :=
  modify_user_role user role project "remove" [].

Definition get_projects : M (list pyobject) :=
  self <- get_self ;;
  get_list (apiconn self) "DescribeProjects" ∅ [("item", ProjectInfo)].

Definition get_project (name : string) : M (option pyobject) :=
  self <- get_self ;;
  project <- get_object (apiconn self) "DescribeProject"
               {[ "Name" := PyStr name ]} ProjectInfo ;;
  projectname <- lift (getattr project "projectname") ;;
  if py_ne_None projectname then ret (Some project) else ret None.

Definition create_project (projectname manager_user : string)
  (description member_users : pyval) : M pyobject :=
  self <- get_self ;;
  let params : gmap string pyval :=
    <[ "Name" := PyStr projectname ]> (<[ "ManagerUser" := PyStr manager_user ]>
      (<[ "Description" := description ]> {[ "MemberUsers" := member_users ]})) in
  get_object (apiconn self) "RegisterProject" params ProjectInfo.

Definition delete_project (projectname : string) : M pyobject :=
  self <- get_self ;;
  get_object (apiconn self) "DeregisterProject"
    {[ "Name" := PyStr projectname ]} ProjectInfo.

Definition modify_project_user (user project operation : string)
  (kwargs : list (string * pyval)) : M bool :=
  self <- get_self ;;
  let params : gmap string pyval :=
    <[ "User" := PyStr user ]> (<[ "Project" := PyStr project ]>
      {[ "Operation" := PyStr operation ]}) in
  get_status (apiconn self) "ModifyProjectUser" params.

Definition get_zip (username : string) : M pyval :=
  self <- get_self ;;
  user <- get_object (apiconn self) "GenerateX509ForUser"
            {[ "Name" := PyStr username ]} UserInfo ;;
  lift (getattr user "file").

Definition get_hosts : M (list pyobject) :=
  self <- get_self ;;
  get_list (apiconn self) "DescribeHosts" ∅ [("item", HostInfo)].

(** *** The facade as a whole: every public method with its arguments *)

Inductive facade_op : Type :=
  | call_connection_for (username : string) (kwargs : list (string * pyval))
  | call_get_users
  | call_get_user (name : string)
  | call_has_user (username : string)
  | call_create_user (username : string)
  | call_delete_user (username : string)
  | call_add_user_role (user role : string) (project : pyval)
  | call_remove_user_role (user role : string) (project : pyval)
  | call_modify_user_role (user role : string) (project : pyval)
      (operation : string) (kwargs : list (string * pyval))
  | call_get_projects
  | call_get_project (name : string)
  | call_create_project (projectname manager_user : string)
      (description member_users : pyval)
  | call_delete_project (projectname : string)
  | call_modify_project_user (user project operation : string)
      (kwargs : list (string * pyval))
  | call_get_zip (username : string)
  | call_get_hosts.

(** The world a call leaves behind, whether it returned or raised. *)
Definition world_after (op : facade_op) (w : world) : world :=
  match op with
  | call_connection_for username kwargs => snd (connection_for username kwargs w)
  | call_get_users => snd (get_users w)
  | call_get_user name => snd (get_user name w)
  | call_has_user username => snd (has_user username w)
  | call_create_user username => snd (create_user username w)
  | call_delete_user username => snd (delete_user username w)
  | call_add_user_role user role project =>
      snd (add_user_role user role project w)
  | call_remove_user_role user role project =>
      snd (remove_user_role user role project w)
  | call_modify_user_role user role project operation kwargs =>
      snd (modify_user_role user role project operation kwargs w)
  | call_get_projects => snd (get_projects w)
  | call_get_project name => snd (get_project name w)
  | call_create_project projectname manager_user description member_users =>
      snd (create_project projectname manager_user description member_users w)
  | call_delete_project projectname => snd (delete_project projectname w)
  | call_modify_project_user user project operation kwargs =>
      snd (modify_project_user user project operation kwargs w)
  | call_get_zip username => snd (get_zip username w)
  | call_get_hosts => snd (get_hosts w)
  end.

End Client.

(** ** Vocabulary of the statements *)

(** The values [0 .. n-1], for facts checked on every byte or sextet. *)
Definition N_below (n : nat) : list N := map N.of_nat (seq 0 n).

(** The text of the last element with tag [tag] in a stream, if there is
    one. *)
Fixpoint last_text (tag : string) (stream : list sax_event) : option string :=
  match stream with
  | [] => None
  | StartElement _ _ :: rest => last_text tag rest
  | EndElement name value :: rest =>
      match last_text tag rest with
      | Some later => Some later
      | None => if decide (name = tag) then Some value else None
      end
  end.

(** The tags [UserInfo.endElement] stores as text. *)
Definition user_text_tag (tag : string) : Prop :=
  tag = "username" \/ tag = "accesskey" \/ tag = "secretkey".

(** Every [file] element of the stream carries text that base64 accepts. *)
Definition file_texts_ok (stream : list sax_event) : Prop :=
  forall value, In (EndElement "file" value) stream ->
    exists bs, base64.b64decode value = inr bs.

(** What decoding leaves in the attribute [tag] of a record of class [cls]
    when [value] is the text of the last element with that tag: [got] is the
    attribute afterwards, [old] the attribute of the instance as
    constructed.  [UserInfo] stores three tags as text and [file] as the
    decoded bytes, and leaves every other attribute as it was;
    [ProjectInfo] and [HostInfo] store every tag under its own name. *)
Definition assigned (cls : record_class) (old : option pyval)
  (tag value : string) (got : option pyval) : Prop :=
  match cls with
  | UserInfo =>
      (user_text_tag tag -> got = Some (PyStr value)) /\
      (tag = "file" ->
         exists bs, base64.b64decode value = inr bs /\
                    got = Some (PyBytes bs)) /\
      (~ user_text_tag tag -> tag <> "file" -> got = old)
  | ProjectInfo | HostInfo => got = Some (PyStr value)
  end.

(** A well-formed document: a tree of elements.  [text] is the character
    data that reaches the callback with the end of the element. *)
#[warnings="-register-all"]
Inductive xml : Type :=
  | Element (name : string) (attrs : list (string * string))
      (children : list xml) (text : string).

(** The events of an element, in document order. *)
Fixpoint events (x : xml) : list sax_event :=
  match x with
  | Element name attrs children text =>
      StartElement name attrs :: flat_map events children ++
      [EndElement name text]
  end.


(** The names [setattr] refuses, and the streams without an element of such
    a name. *)
Definition special_name (name : string) : Prop :=
  name = "__class__" \/ name = "__dict__" \/ name = "__weakref__".

Definition settable_tags (stream : list sax_event) : Prop :=
  forall name value, In (EndElement name value) stream -> ~ special_name name.

(** The streams no callback of the class raises on. *)
Definition decodable (cls : record_class) (stream : list sax_event) : Prop :=
  match cls with
  | UserInfo => file_texts_ok stream
  | ProjectInfo | HostInfo => settable_tags stream
  end.

(** The word [true], and the word [false], in any mix of upper and lower
    case. *)
Definition true_text (text : string) : Prop :=
  exists c1 c2 c3 c4,
    text = String c1 (String c2 (String c3 (String c4 ""))) /\
    (c1 = "t" \/ c1 = "T")%char /\ (c2 = "r" \/ c2 = "R")%char /\
    (c3 = "u" \/ c3 = "U")%char /\ (c4 = "e" \/ c4 = "E")%char.

Definition false_text (text : string) : Prop :=
  exists c1 c2 c3 c4 c5,
    text = String c1 (String c2 (String c3 (String c4 (String c5 "")))) /\
    (c1 = "f" \/ c1 = "F")%char /\ (c2 = "a" \/ c2 = "A")%char /\
    (c3 = "l" \/ c3 = "L")%char /\ (c4 = "s" \/ c4 = "S")%char /\
    (c5 = "e" \/ c5 = "E")%char.


(** A service that answers every request with the same document, and a
    client constructed with the default arguments, for closed examples. *)
Definition answering (stream : list sax_event) : remote :=
  fun _ _ _ _ => Document stream.

Definition default_client : world :=
  admin_client "127.0.0.1" "nova" "admin" "admin" [] [].

(** The world after one round trip. *)
Definition sent (w : world) (conn : connection) (action : string)
  (params : gmap string pyval) : world :=
  {| this := this w; wire := wire w ++ [Requested conn action params] |}.

(** ** Records as text *)

(** ['%s' % v]: [None] prints as [None] and text as itself; what a byte
    string or a connection prints as is not fixed by this code and is taken
    from [render]. *)
Definition py_format_s (render : pyval -> string) (v : pyval) : string :=
  match v with
  | PyNone => "None"
  | PyStr s => s
  | _ => render v
  end.

Definition UserInfo__repr__ (render : pyval -> string) (self : pyobject)
  : result string :=
  rmap (fun v => "UserInfo:" ++ py_format_s render v)
    (getattr self "username").

Definition ProjectInfo__repr__ (render : pyval -> string) (self : pyobject)
  : result string :=
  rmap (fun v => "ProjectInfo:" ++ py_format_s render v)
    (getattr self "projectname").

Definition HostInfo__repr__ (render : pyval -> string) (self : pyobject)
  : result string :=
  rmap (fun v => "Host:" ++ py_format_s render v)
    (getattr self "hostname").

(** [repr(self)], through the instance's class. *)
Definition repr (render : pyval -> string) (self : pyobject) : result string :=
  match ob_type self with
  | UserInfo => UserInfo__repr__ render self
  | ProjectInfo => ProjectInfo__repr__ render self
  | HostInfo => HostInfo__repr__ render self
  end.

(** How the text of an element that may be missing prints. *)
Definition shown (text : option string) : string :=
  match text with
  | Some value => value
  | None => "None"
  end.

(** ** The exception a facade call ends with, if it ends with one *)

Definition error_of {A : Type} (r : result A * world) : option py_error :=
  match fst r with
  | inl e => Some e
  | inr _ => None
  end.

Definition raised (service : remote) (op : facade_op) (w : world)
  : option py_error :=
  match op with
  | call_connection_for username kwargs =>
      error_of (connection_for service username kwargs w)
  | call_get_users => error_of (get_users service w)
  | call_get_user name => error_of (get_user service name w)
  | call_has_user username => error_of (has_user service username w)
  | call_create_user username => error_of (create_user service username w)
  | call_delete_user username => error_of (delete_user service username w)
  | call_add_user_role user role project =>
      error_of (add_user_role service user role project w)
  | call_remove_user_role user role project =>
      error_of (remove_user_role service user role project w)
  | call_modify_user_role user role project operation kwargs =>
      error_of (modify_user_role service user role project operation kwargs w)
  | call_get_projects => error_of (get_projects service w)
  | call_get_project name => error_of (get_project service name w)
  | call_create_project projectname manager_user description member_users =>
      error_of (create_project service projectname manager_user description
                  member_users w)
  | call_delete_project projectname =>
      error_of (delete_project service projectname w)
  | call_modify_project_user user project operation kwargs =>
      error_of (modify_project_user service user project operation kwargs w)
  | call_get_zip username => error_of (get_zip service username w)
  | call_get_hosts => error_of (get_hosts service w)
  end.

(** A service that cannot be reached, and one that answers with a body that
    is not XML. *)
Definition unreachable (info : string) : remote :=
  fun _ _ _ _ => NoResponse info.

Definition garbled : remote := fun _ _ _ _ => NotWellFormed.

(** ** nova/manager.py: the base class of managers *)

(** The two flags the constructor reads: [FLAGS.host] and
    [FLAGS.db_driver]. *)
Record Flags : Type := {
  FLAGS_host : string;
  FLAGS_db_driver : string
}.

(** A manager over a driver of type [DB]: [self.host] and [self.db]. *)
Record Manager (DB : Type) : Type := {
  manager_host : string;
  manager_db : DB
}.

Arguments manager_host {DB} _.
Arguments manager_db {DB} _.

(** [not x], for an argument that is [None] or a string. *)
Definition py_not (x : option string) : bool :=
  match x with
  | None => true
  | Some s => bool_decide (s = "")
  end.

(** [if not x: x = flag], and [x] afterwards. *)
Definition or_flag (x : option string) (flag : string) : string :=
  if py_not x then flag else default flag x.

(** [Manager(host, db_driver)]; both arguments default to [None].
    [import_object] is [utils.import_object], which is not part of these
    files: it gives the driver of a name, or raises. *)
Definition Manager__init__ {DB : Type} (FLAGS : Flags)
  (import_object : string -> result DB) (host db_driver : option string)
  : result (Manager DB) :=
  let host := or_flag host (FLAGS_host FLAGS) in
  let db_driver := or_flag db_driver (FLAGS_db_driver FLAGS) in
  rbind (import_object db_driver)
    (fun db => inr {| manager_host := host; manager_db := db |}).

(** [periodic_tasks] is a generator with one bare [yield]: the values it
    produces. *)
Definition periodic_tasks {DB : Type} (self : Manager DB) (context : pyval)
  : list pyval :=
  [PyNone].

(** [init_host] does nothing and returns [None]. *)
Definition init_host {DB : Type} (self : Manager DB) : Manager DB * pyval :=
  (self, PyNone).

(** * Properties *)

(** ** Base64: decoding undoes encoding *)

Section Base64Facts.

Import base64.
Open Scope N_scope.

Lemma forallb_N_below (P : N -> bool) (n : nat) :
  forallb P (N_below n) = true ->
  forall v, v < N.of_nat n -> P v = true.
Proof.
  intros Hall v Hv.
  rewrite forallb_forall in Hall. apply Hall.
  unfold N_below. apply in_map_iff. exists (N.to_nat v). split.
  - apply N2Nat.id.
  - apply in_seq. lia.
Qed.

Lemma forallb2_N_below (P : N -> N -> bool) (n m : nat) :
  forallb (fun x => forallb (P x) (N_below m)) (N_below n) = true ->
  forall x y, x < N.of_nat n -> y < N.of_nat m -> P x y = true.
Proof.
  intros Hall x y Hx Hy.
  apply (forallb_N_below (P x) m); [|assumption].
  apply (forallb_N_below (fun x => forallb (P x) (N_below m)) n); assumption.
Qed.

Lemma byte_to_N_lt (a : byte) : Byte.to_N a < 256.
Proof. pose proof (Byte.to_N_bounded a). lia. Qed.

Lemma byte_of_to_N (a : byte) : byte_of_N (Byte.to_N a) = a.
Proof.
  unfold byte_of_N.
  rewrite N.mod_small by apply byte_to_N_lt.
  now rewrite Byte.of_to_N.
Qed.

(** Every 6-bit value has a character, the character is not the pad, and the
    reverse table gives the value back. *)
Lemma sextet_char (v : N) :
  v < 64 ->
  Ascii.eqb (b2a_char v) BASE64_PAD = false /\ a2b_char (b2a_char v) = Some v.
Proof.
  intros Hv.
  pose (P := fun u =>
    negb (Ascii.eqb (b2a_char u) BASE64_PAD) &&
    match a2b_char (b2a_char u) with Some w => w =? u | None => false end).
  assert (HP : P v = true).
  { apply (forallb_N_below P 64); [vm_compute; reflexivity | exact Hv]. }
  unfold P in HP. apply andb_true_iff in HP as [H1 H2].
  split.
  - now apply negb_true_iff.
  - destruct (a2b_char (b2a_char v)); [|discriminate].
    apply N.eqb_eq in H2. now subst.
Qed.

(** The four sextets of a group of three bytes are 6-bit values. *)
Lemma sextet1_bound (x : N) : x < 256 -> N.shiftr x 2 < 64.
Proof.
  intros Hx. apply N.ltb_lt.
  apply (forallb_N_below (fun x => N.shiftr x 2 <? 64) 256);
    [vm_compute; reflexivity | exact Hx].
Qed.

Lemma sextet2_bound (x y : N) :
  x < 256 -> y < 256 -> N.lor (N.shiftl (N.land x 3) 4) (N.shiftr y 4) < 64.
Proof.
  intros Hx Hy. apply N.ltb_lt.
  apply (forallb2_N_below
           (fun x y => N.lor (N.shiftl (N.land x 3) 4) (N.shiftr y 4) <? 64)
           256 256); [vm_compute; reflexivity | exact Hx | exact Hy].
Qed.

Lemma sextet3_bound (y z : N) :
  y < 256 -> z < 256 -> N.lor (N.shiftl (N.land y 15) 2) (N.shiftr z 6) < 64.
Proof.
  intros Hy Hz. apply N.ltb_lt.
  apply (forallb2_N_below
           (fun y z => N.lor (N.shiftl (N.land y 15) 2) (N.shiftr z 6) <? 64)
           256 256); [vm_compute; reflexivity | exact Hy | exact Hz].
Qed.

Lemma sextet4_bound (z : N) : N.land z 63 < 64.
Proof.
  change 63 with (N.ones 6). rewrite N.land_ones.
  apply N.mod_lt. discriminate.
Qed.

(** What the decoder reassembles from the sextets of a group. *)
Lemma regroup1 (x y : N) :
  x < 256 -> y < 256 ->
  (N.lor (N.shiftl (N.shiftr x 2) 2)
     (N.shiftr (N.lor (N.shiftl (N.land x 3) 4) (N.shiftr y 4)) 4)) mod 256 = x.
Proof.
  intros Hx Hy. apply N.eqb_eq.
  apply (forallb2_N_below
           (fun x y =>
              (N.lor (N.shiftl (N.shiftr x 2) 2)
                 (N.shiftr (N.lor (N.shiftl (N.land x 3) 4) (N.shiftr y 4)) 4))
                mod 256 =? x)
           256 256); [vm_compute; reflexivity | exact Hx | exact Hy].
Qed.

Lemma sextet2_low (x y : N) :
  x < 256 -> y < 256 ->
  N.land (N.lor (N.shiftl (N.land x 3) 4) (N.shiftr y 4)) 15 = N.shiftr y 4.
Proof.
  intros Hx Hy. apply N.eqb_eq.
  apply (forallb2_N_below
           (fun x y =>
              N.land (N.lor (N.shiftl (N.land x 3) 4) (N.shiftr y 4)) 15
              =? N.shiftr y 4)
           256 256); [vm_compute; reflexivity | exact Hx | exact Hy].
Qed.

Lemma regroup2 (y z : N) :
  y < 256 -> z < 256 ->
  (N.lor (N.shiftl (N.shiftr y 4) 4)
     (N.shiftr (N.lor (N.shiftl (N.land y 15) 2) (N.shiftr z 6)) 2)) mod 256 = y.
Proof.
  intros Hy Hz. apply N.eqb_eq.
  apply (forallb2_N_below
           (fun y z =>
              (N.lor (N.shiftl (N.shiftr y 4) 4)
                 (N.shiftr (N.lor (N.shiftl (N.land y 15) 2) (N.shiftr z 6)) 2))
                mod 256 =? y)
           256 256); [vm_compute; reflexivity | exact Hy | exact Hz].
Qed.

Lemma regroup3 (y z : N) :
  y < 256 -> z < 256 ->
  (N.lor
     (N.shiftl (N.land (N.lor (N.shiftl (N.land y 15) 2) (N.shiftr z 6)) 3) 6)
     (N.land z 63)) mod 256 = z.
Proof.
  intros Hy Hz. apply N.eqb_eq.
  apply (forallb2_N_below
           (fun y z =>
              (N.lor
                 (N.shiftl
                    (N.land (N.lor (N.shiftl (N.land y 15) 2) (N.shiftr z 6)) 3)
                    6)
                 (N.land z 63)) mod 256 =? z)
           256 256); [vm_compute; reflexivity | exact Hy | exact Hz].
Qed.

(** One step of the decoder on the character of a sextet. *)
Lemma a2b_base64_sextet (v : N) (rest : string) (quad_pos leftchar pads : N) :
  v < 64 ->
  a2b_base64 (String (b2a_char v) rest) quad_pos leftchar pads =
  match quad_pos with
  | 0 => a2b_base64 rest 1 v 0
  | 1 =>
      rmap (cons (byte_of_N (N.lor (N.shiftl leftchar 2) (N.shiftr v 4))))
        (a2b_base64 rest 2 (N.land v 15) 0)
  | 2 =>
      rmap (cons (byte_of_N (N.lor (N.shiftl leftchar 4) (N.shiftr v 2))))
        (a2b_base64 rest 3 (N.land v 3) 0)
  | _ =>
      rmap (cons (byte_of_N (N.lor (N.shiftl leftchar 6) v)))
        (a2b_base64 rest 0 0 0)
  end.
Proof.
  intros Hv. destruct (sextet_char v Hv) as [Hpad Hrev].
  cbn [a2b_base64]. rewrite Hpad, Hrev. reflexivity.
Qed.

(** The last, incomplete group: one byte gives two characters, two bytes
    give three. *)
Lemma tail1_bound (x : N) : x < 256 -> N.shiftl (N.land x 3) 4 < 64.
Proof.
  intros Hx. apply N.ltb_lt.
  apply (forallb_N_below (fun x => N.shiftl (N.land x 3) 4 <? 64) 256);
    [vm_compute; reflexivity | exact Hx].
Qed.

Lemma tail1_regroup (x : N) :
  x < 256 ->
  (N.lor (N.shiftl (N.shiftr x 2) 2)
     (N.shiftr (N.shiftl (N.land x 3) 4) 4)) mod 256 = x.
Proof.
  intros Hx. apply N.eqb_eq.
  apply (forallb_N_below
           (fun x =>
              (N.lor (N.shiftl (N.shiftr x 2) 2)
                 (N.shiftr (N.shiftl (N.land x 3) 4) 4)) mod 256 =? x) 256);
    [vm_compute; reflexivity | exact Hx].
Qed.

Lemma tail2_bound (y : N) : y < 256 -> N.shiftl (N.land y 15) 2 < 64.
Proof.
  intros Hy. apply N.ltb_lt.
  apply (forallb_N_below (fun y => N.shiftl (N.land y 15) 2 <? 64) 256);
    [vm_compute; reflexivity | exact Hy].
Qed.

Lemma tail2_regroup (y : N) :
  y < 256 ->
  (N.lor (N.shiftl (N.shiftr y 4) 4)
     (N.shiftr (N.shiftl (N.land y 15) 2) 2)) mod 256 = y.
Proof.
  intros Hy. apply N.eqb_eq.
  apply (forallb_N_below
           (fun y =>
              (N.lor (N.shiftl (N.shiftr y 4) 4)
                 (N.shiftr (N.shiftl (N.land y 15) 2) 2)) mod 256 =? y) 256);
    [vm_compute; reflexivity | exact Hy].
Qed.

(** Induction over a list three elements at a time. *)
Lemma list_ind3 {A : Type} (P : list A -> Prop) :
  P [] ->
  (forall a, P [a]) ->
  (forall a b, P [a; b]) ->
  (forall a b c rest, P rest -> P (a :: b :: c :: rest)) ->
  forall l, P l.
Proof.
  intros H0 H1 H2 H3.
  fix IH 1.
  intros [|a [|b [|c rest]]].
  - exact H0.
  - apply H1.
  - apply H2.
  - apply H3, IH.
Qed.

Lemma byte_of_N_mod (n : N) (a : byte) :
  n mod 256 = Byte.to_N a -> byte_of_N n = a.
Proof.
  intros H. unfold byte_of_N. rewrite H. now rewrite Byte.of_to_N.
Qed.

Lemma b64decode_b64encode (bs : list byte) :
  b64decode (b64encode bs) = inr bs.
Proof.
  unfold b64decode.
  induction bs as [|a|a b|a b c rest IH] using list_ind3.
  - reflexivity.
  - pose proof (byte_to_N_lt a) as Ha.
    cbn [b64encode].
    rewrite a2b_base64_sextet by now apply sextet1_bound.
    rewrite a2b_base64_sextet by now apply tail1_bound.
    cbn.
    rewrite (byte_of_N_mod _ a) by now apply tail1_regroup.
    reflexivity.
  - pose proof (byte_to_N_lt a) as Ha. pose proof (byte_to_N_lt b) as Hb.
    cbn [b64encode].
    rewrite a2b_base64_sextet by now apply sextet1_bound.
    rewrite a2b_base64_sextet by now apply sextet2_bound.
    rewrite a2b_base64_sextet by now apply tail2_bound.
    cbn.
    rewrite (byte_of_N_mod _ a) by now apply regroup1.
    rewrite sextet2_low by assumption.
    rewrite (byte_of_N_mod _ b) by now apply tail2_regroup.
    reflexivity.
  - pose proof (byte_to_N_lt a) as Ha. pose proof (byte_to_N_lt b) as Hb.
    pose proof (byte_to_N_lt c) as Hc.
    cbn [b64encode].
    rewrite a2b_base64_sextet by now apply sextet1_bound.
    rewrite a2b_base64_sextet by now apply sextet2_bound.
    rewrite a2b_base64_sextet by now apply sextet3_bound.
    rewrite a2b_base64_sextet by apply sextet4_bound.
    cbn match. rewrite IH. cbn [rmap].
    rewrite (byte_of_N_mod _ a) by now apply regroup1.
    rewrite sextet2_low by assumption.
    rewrite (byte_of_N_mod _ b) by now apply regroup2.
    rewrite (byte_of_N_mod _ c) by now apply regroup3.
    reflexivity.
Qed.

End Base64Facts.

(** ** Records and [decode_single] *)

Section Decoding.

Implicit Types (self u : pyobject) (stream : list sax_event).
Implicit Types (tag name value : string) (conn : pyval).

Lemma py_setattr_inr self name v self' :
  py_setattr self name v = inr self' ->
  ~ special_name name /\ self' = setattr self name v.
Proof.
  unfold py_setattr, special_name. repeat case_decide; try discriminate.
  intros [= <-]. split; [|done]. by intros [?|[?|?]].
Qed.

Lemma py_setattr_settable self name v :
  ~ special_name name -> py_setattr self name v = inr (setattr self name v).
Proof.
  unfold py_setattr, special_name. intros Hname.
  repeat case_decide; try done; exfalso; auto.
Qed.

Lemma endElement_type self name value conn self' :
  endElement self name value conn = inr self' -> ob_type self' = ob_type self.
Proof.
  unfold endElement, UserInfo_endElement, ProjectInfo_endElement,
    HostInfo_endElement.
  destruct (ob_type self) eqn:Hty.
  - repeat case_decide; try (intros [= <-]; cbn; congruence).
    destruct (base64.b64decode (py_str value)); cbn; intros [= <-].
    cbn; congruence.
  - intros Hset. apply py_setattr_inr in Hset as [_ ->]. cbn; congruence.
  - intros Hset. apply py_setattr_inr in Hset as [_ ->]. cbn; congruence.
Qed.

(** An end event leaves the attributes of other names alone. *)
Lemma endElement_other self name value conn self' tag :
  endElement self name value conn = inr self' ->
  name <> tag ->
  ob_dict self' !! tag = ob_dict self !! tag.
Proof.
  unfold endElement, UserInfo_endElement, ProjectInfo_endElement,
    HostInfo_endElement.
  intros Hend Hne.
  destruct (ob_type self).
  - repeat case_decide; subst;
      try (injection Hend as <-; cbn; try rewrite lookup_insert_ne by done;
           done).
    destruct (base64.b64decode (py_str value)); cbn in Hend; [discriminate|].
    injection Hend as <-. cbn. by rewrite lookup_insert_ne.
  - apply py_setattr_inr in Hend as [_ ->]. cbn. by rewrite lookup_insert_ne.
  - apply py_setattr_inr in Hend as [_ ->]. cbn. by rewrite lookup_insert_ne.
Qed.

(** What an end event leaves under its own name. *)
Lemma endElement_assigned self name value conn self' :
  endElement self name value conn = inr self' ->
  assigned (ob_type self) (ob_dict self !! name) name value
    (ob_dict self' !! name).
Proof.
  unfold endElement, UserInfo_endElement, ProjectInfo_endElement,
    HostInfo_endElement, assigned, user_text_tag, py_str.
  intros Hend.
  destruct (ob_type self).
  - repeat case_decide; subst;
      try (destruct (base64.b64decode value) as [e|bs] eqn:Hdec;
           cbn in Hend; [discriminate|]);
      simplify_eq; cbn; rewrite ?lookup_insert_eq;
      repeat split; intros; try done; try (exfalso; tauto); eauto;
      repeat match goal with
             | H : _ \/ _ |- _ => destruct H
             end; discriminate.
  - apply py_setattr_inr in Hend as [_ ->]. cbn. by rewrite lookup_insert_eq.
  - apply py_setattr_inr in Hend as [_ ->]. cbn. by rewrite lookup_insert_eq.
Qed.

Lemma assigned_old cls old old' tag value got :
  (cls = UserInfo -> ~ user_text_tag tag -> tag <> "file" -> old = old') ->
  assigned cls old tag value got -> assigned cls old' tag value got.
Proof.
  intros Hold. destruct cls; cbn; [|done..].
  intros (Htext & Hfile & Hrest). repeat split; [done..|].
  intros H1 H2. rewrite <- Hold by done. by apply Hrest.
Qed.

Lemma assigned_unmapped self name value conn self' :
  endElement self name value conn = inr self' ->
  ob_type self = UserInfo ->
  ~ user_text_tag name -> name <> "file" ->
  self' = self.
Proof.
  unfold endElement, UserInfo_endElement, user_text_tag.
  intros Hend Hty Htext Hfile. rewrite Hty in Hend.
  repeat case_decide; subst; try congruence; exfalso; auto.
Qed.

(** The attributes of a record after a stream has been replayed on it. *)
Lemma feed_attributes stream self conn u :
  feed self conn stream = inr u ->
  ob_type u = ob_type self /\
  forall tag,
    match last_text tag stream with
    | None => ob_dict u !! tag = ob_dict self !! tag
    | Some value =>
        assigned (ob_type self) (ob_dict self !! tag) tag value
          (ob_dict u !! tag)
    end.
Proof.
  revert self. induction stream as [|[name attrs|name value] rest IH];
    intros self Hfeed; cbn [feed last_text] in *.
  - injection Hfeed as <-. done.
  - by apply IH.
  - destruct (endElement self name value conn) as [e|self'] eqn:Hend;
      cbn in Hfeed; [discriminate|].
    destruct (IH _ Hfeed) as [Hty Hattr].
    pose proof (endElement_type _ _ _ _ _ Hend) as Hty'.
    split; [congruence|].
    intros tag. specialize (Hattr tag).
    destruct (last_text tag rest) as [later|].
    + rewrite Hty' in Hattr. eapply assigned_old; [|exact Hattr].
      intros Hcls Htext Hfile. destruct (decide (name = tag)) as [->|Hne].
      * by rewrite (assigned_unmapped _ _ _ _ _ Hend Hcls Htext Hfile).
      * by apply (endElement_other _ _ _ _ _ _ Hend).
    + rewrite Hattr. case_decide as Hname.
      * subst tag. by apply (endElement_assigned _ _ _ _ _ Hend).
      * by apply (endElement_other _ _ _ _ _ _ Hend).
Qed.

Lemma decodable_tail cls e stream :
  decodable cls (e :: stream) -> decodable cls stream.
Proof.
  destruct cls; cbn; unfold file_texts_ok, settable_tags; intros Hok.
  - intros value Hin. apply Hok. by right.
  - intros name value Hin. apply (Hok name value). by right.
  - intros name value Hin. apply (Hok name value). by right.
Qed.

(** Replaying a stream returns when no callback has a reason to raise. *)
Lemma feed_returns stream self conn :
  decodable (ob_type self) stream ->
  exists u, feed self conn stream = inr u.
Proof.
  revert self. induction stream as [|[name attrs|name value] rest IH];
    intros self Hok; cbn [feed].
  - eauto.
  - apply IH. by apply decodable_tail in Hok.
  - assert (exists self', endElement self name value conn = inr self')
      as [self' Hend].
    { unfold endElement, UserInfo_endElement, ProjectInfo_endElement,
        HostInfo_endElement, py_str.
      destruct (ob_type self) eqn:Hty; cbn in Hok.
      - repeat case_decide; eauto. subst name.
        destruct (Hok value) as [bs ->]; [by left|]. cbn. eauto.
      - rewrite py_setattr_settable; [eauto|]. apply (Hok name value). by left.
      - rewrite py_setattr_settable; [eauto|]. apply (Hok name value). by left. }
    rewrite Hend. cbn [rbind]. apply IH.
    rewrite (endElement_type _ _ _ _ _ Hend).
    by apply decodable_tail in Hok.
Qed.


Lemma decode_single_returns stream cls conn :
  decodable cls stream ->
  exists u, decode_single stream cls conn = inr u.
Proof.
  intros Hok. apply feed_returns. by destruct cls.
Qed.


Lemma new_type cls conn : ob_type (new cls conn) = cls.
Proof. by destruct cls. Qed.




(** C6: for every byte string, the empty one and bytes outside ASCII
    included, decoding its base64 encoding gives the bytes back, and so does
    the [file] mapping of UserInfo: the [file] element whose text is the
    encoding leaves exactly the original bytes in the attribute [file]. *)
Theorem file_field_roundtrip (bs : list byte) self conn :
  base64.b64decode (base64.b64encode bs) = inr bs /\
  UserInfo_endElement self "file" (base64.b64encode bs) conn =
    inr (setattr self "file" (PyBytes bs)) /\
  rbind (decode_single [StartElement "file" [];
                        EndElement "file" (base64.b64encode bs)]
           UserInfo conn)
    (fun user => getattr user "file") = inr (PyBytes bs).
Proof.
  pose proof (b64decode_b64encode bs) as Hrt.
  split; [exact Hrt|]. split.
  - unfold UserInfo_endElement, py_str.
    repeat case_decide; try done. by rewrite Hrt.
  - unfold decode_single. cbn [feed]. cbn [new endElement ob_type UserInfo__init__ setattr].
    unfold UserInfo_endElement, py_str.
    repeat case_decide; try done. rewrite Hrt. cbn.
    unfold getattr. cbn. by rewrite lookup_insert_eq.
Qed.

Lemma last_text_None tag stream :
  last_text tag stream = None ->
  forall value, ~ In (EndElement tag value) stream.
Proof.
  induction stream as [|[name attrs|name value'] rest IH]; cbn; intros Hlast.
  - by intros value [].
  - intros value [H|H]; [discriminate|]. by apply (IH Hlast value).
  - destruct (last_text tag rest); [discriminate|].
    case_decide as Hname; [discriminate|].
    intros value [H|H]; [congruence|]. by apply (IH eq_refl value).
Qed.

Lemma status_text_None stream :
  (forall value, ~ In (EndElement "return" value) stream) ->
  status_text stream = None.
Proof.
  induction stream as [|[name attrs|name value] rest IH]; cbn; intros Hno.
  - done.
  - apply IH. intros value Hin. apply (Hno value). by right.
  - case_decide as Hname.
    + subst. exfalso. apply (Hno value). by left.
    + apply IH. intros v Hin. apply (Hno v). by right.
Qed.

Lemma status_text_first pre value post :
  (forall v, ~ In (EndElement "return" v) pre) ->
  status_text (pre ++ EndElement "return" value :: post) = Some value.
Proof.
  induction pre as [|[name attrs|name v] pre IH]; cbn; intros Hno.
  - done.
  - apply IH. intros v Hin. apply (Hno v). by right.
  - case_decide as Hname.
    + subst. exfalso. apply (Hno v). by left.
    + apply IH. intros v' Hin. apply (Hno v'). by right.
Qed.

Lemma lower_true_text value : true_text value -> lower value = "true".
Proof.
  intros (c1 & c2 & c3 & c4 & -> & H1 & H2 & H3 & H4).
  destruct H1 as [-> | ->], H2 as [-> | ->], H3 as [-> | ->],
    H4 as [-> | ->]; reflexivity.
Qed.

Lemma lower_false_text value : false_text value -> lower value = "false".
Proof.
  intros (c1 & c2 & c3 & c4 & c5 & -> & H1 & H2 & H3 & H4 & H5).
  destruct H1 as [-> | ->], H2 as [-> | ->], H3 as [-> | ->],
    H4 as [-> | ->], H5 as [-> | ->]; reflexivity.
Qed.

Lemma last_text_absent tag stream :
  (forall value, ~ In (EndElement tag value) stream) ->
  last_text tag stream = None.
Proof.
  induction stream as [|[name attrs|name value] rest IH]; cbn; intros Hno.
  - done.
  - apply IH. intros value Hin. apply (Hno value). by right.
  - rewrite IH.
    + case_decide as Hname; [|done].
      subst. exfalso. apply (Hno value). by left.
    + intros v Hin. apply (Hno v). by right.
Qed.

(** ** [decode_list] *)










End Decoding.


(** ** The facade *)

Section Facade.

Variable service : remote.

Implicit Types (w : world) (stream : list sax_event) (conn : connection).
Implicit Types (params : gmap string pyval).

Lemma make_request_world w conn action params :
  snd (make_request service conn action params w) = sent w conn action params.
Proof.
  unfold make_request. by destruct (service (wire w) conn action params).
Qed.

Lemma get_object_Document w conn action params cls stream :
  service (wire w) conn action params = Document stream ->
  get_object service conn action params cls w =
    (decode_single stream cls (PyConn conn), sent w conn action params).
Proof.
  intros Hresp. unfold get_object, bind, make_request, lift.
  by rewrite Hresp.
Qed.

Lemma get_object_world w conn action params cls :
  snd (get_object service conn action params cls w) =
    sent w conn action params.
Proof.
  unfold get_object, bind, make_request, lift.
  by destruct (service (wire w) conn action params).
Qed.


Lemma get_list_world w conn action params markers :
  snd (get_list service conn action params markers w) =
    sent w conn action params.
Proof.
  unfold get_list, bind, make_request, lift.
  by destruct (service (wire w) conn action params).
Qed.

Lemma get_status_Document w conn action params stream :
  service (wire w) conn action params = Document stream ->
  get_status service conn action params w =
    (decode_status stream, sent w conn action params).
Proof.
  intros Hresp. unfold get_status, bind, make_request, lift.
  by rewrite Hresp.
Qed.

Lemma get_status_world w conn action params :
  snd (get_status service conn action params w) =
    sent w conn action params.
Proof.
  unfold get_status, bind, make_request, lift.
  by destruct (service (wire w) conn action params).
Qed.

(** [get_user] in terms of the decoded record. *)
Lemma get_user_Document w name stream :
  service (wire w) (apiconn (this w)) "DescribeUser"
    {[ "Name" := PyStr name ]} = Document stream ->
  fst (get_user service name w) =
    rbind (decode_single stream UserInfo (PyConn (apiconn (this w))))
      (fun user =>
         rbind (getattr user "username")
           (fun username =>
              inr (if py_ne_None username then Some user else None))).
Proof.
  intros Hresp. unfold get_user, bind, get_self.
  rewrite (get_object_Document _ _ _ _ _ _ Hresp).
  destruct (decode_single stream UserInfo _) as [e|user]; [done|].
  cbn. unfold lift. destruct (getattr user "username") as [e|v]; [done|].
  cbn. by destruct (py_ne_None v).
Qed.

Lemma get_user_world w name :
  snd (get_user service name w) =
    sent w (apiconn (this w)) "DescribeUser" {[ "Name" := PyStr name ]}.
Proof.
  unfold get_user, bind, get_self.
  pose proof (get_object_world w (apiconn (this w)) "DescribeUser"
                {[ "Name" := PyStr name ]} UserInfo) as Hw.
  destruct (get_object service (apiconn (this w)) "DescribeUser" _ UserInfo w)
    as [[e|user] w']; cbn in Hw; subst w'; [done|].
  unfold lift. destruct (getattr user "username") as [e|v]; [done|].
  by destruct (py_ne_None v).
Qed.

Lemma get_project_world w name :
  snd (get_project service name w) =
    sent w (apiconn (this w)) "DescribeProject" {[ "Name" := PyStr name ]}.
Proof.
  unfold get_project, bind, get_self.
  pose proof (get_object_world w (apiconn (this w)) "DescribeProject"
                {[ "Name" := PyStr name ]} ProjectInfo) as Hw.
  destruct (get_object service (apiconn (this w)) "DescribeProject" _
              ProjectInfo w) as [[e|project] w']; cbn in Hw; subst w'; [done|].
  unfold lift. destruct (getattr project "projectname") as [e|v]; [done|].
  by destruct (py_ne_None v).
Qed.

Lemma get_zip_world w username :
  snd (get_zip service username w) =
    sent w (apiconn (this w)) "GenerateX509ForUser"
      {[ "Name" := PyStr username ]}.
Proof.
  unfold get_zip, bind, get_self.
  pose proof (get_object_world w (apiconn (this w)) "GenerateX509ForUser"
                {[ "Name" := PyStr username ]} UserInfo) as Hw.
  by destruct (get_object service (apiconn (this w)) "GenerateX509ForUser" _
                 UserInfo w) as [[e|user] w']; cbn in Hw; subst w'.
Qed.

Lemma has_user_world w username :
  snd (has_user service username w) =
    sent w (apiconn (this w)) "DescribeUser" {[ "Name" := PyStr username ]}.
Proof.
  unfold has_user, bind.
  pose proof (get_user_world w username) as Hw.
  by destruct (get_user service username w) as [[e|user] w'];
    cbn in Hw; subst w'.
Qed.

Lemma connection_for_this w username kwargs :
  this (snd (connection_for service username kwargs w)) = this w.
Proof.
  unfold connection_for, bind.
  pose proof (get_user_world w username) as Hw.
  destruct (get_user service username w) as [[e|user] w'];
    cbn in Hw; subst w'; [done|].
  unfold lift.
  destruct (getattr_opt user "accesskey") as [e|accesskey]; [done|].
  destruct (getattr_opt user "secretkey") as [e|secretkey]; [done|].
  unfold get_self. by destruct (kwargs_clash kwargs).
Qed.

End Facade.

Lemma kwargs_clash_true (kwargs : list (string * pyval)) :
  kwargs_clash kwargs = true <->
  exists key value, In (key, value) kwargs /\ In key connect_keywords.
Proof.
  unfold kwargs_clash. rewrite existsb_exists. split.
  - intros ([key value] & Hin & Hkey). apply bool_decide_eq_true in Hkey.
    exists key, value. split; [done|]. by apply list_elem_of_In.
  - intros (key & value & Hin & Hkey). exists (key, value). split; [done|].
    apply bool_decide_eq_true. by apply list_elem_of_In.
Qed.

Lemma kwargs_clash_false (kwargs : list (string * pyval)) :
  kwargs_clash kwargs = false <->
  forall key value, In (key, value) kwargs -> ~ In key connect_keywords.
Proof.
  rewrite <- not_true_iff_false, kwargs_clash_true. split.
  - intros Hno key value Hin Hkey. apply Hno. eauto.
  - intros Hfree (key & value & Hin & Hkey). by apply (Hfree key value).
Qed.

Section Claims.

Implicit Types (service : remote) (w : world) (stream : list sax_event).

(** C1, as the code has it: [get_user] returns an absent result exactly
    when the decoded record has no username, that is when the response
    carries no [username] element and the attribute is still the [None] of
    the constructor; when the response carries one, with any text, the
    empty string included, [get_user] returns the decoded record. *)
Theorem get_user_absent_iff_unset service w name stream user :
  service (wire w) (apiconn (this w)) "DescribeUser"
    {[ "Name" := PyStr name ]} = Document stream ->
  decode_single stream UserInfo (PyConn (apiconn (this w))) = inr user ->
  (last_text "username" stream = None ->
     getattr user "username" = inr PyNone /\
     fst (get_user service name w) = inr None) /\
  (forall value, last_text "username" stream = Some value ->
     getattr user "username" = inr (PyStr value) /\
     fst (get_user service name w) = inr (Some user)).
Proof.
  intros Hresp Hdec.
  rewrite (get_user_Document _ _ _ _ Hresp), Hdec. cbn [rbind].
  destruct (feed_attributes _ _ _ _ Hdec) as [_ Hattr].
  specialize (Hattr "username"). unfold getattr.
  split.
  - intros Hnone. rewrite Hnone in Hattr. rewrite Hattr. by cbn.
  - intros value Hsome. rewrite Hsome in Hattr.
    destruct Hattr as [Htext _]. rewrite Htext; [by cbn|].
    by left.
Qed.

Lemma get_user_absent_iff_unset_witness :
  let stream := [StartElement "username" []; EndElement "username" "alice";
                 StartElement "accesskey" []; EndElement "accesskey" "ak"] in
  let conn := PyConn (apiconn (this default_client)) in
  let user := setattr (setattr (new UserInfo conn) "username" (PyStr "alice"))
                "accesskey" (PyStr "ak") in
  (last_text "username" stream = None ->
     getattr user "username" = inr PyNone /\
     fst (get_user (answering stream) "alice" default_client) = inr None) /\
  (forall value, last_text "username" stream = Some value ->
     getattr user "username" = inr (PyStr value) /\
     fst (get_user (answering stream) "alice" default_client)
       = inr (Some user)).
Proof.
  intros stream conn user.
  apply (get_user_absent_iff_unset (answering stream) default_client "alice"
           stream user); reflexivity.
Defined.

(** C1, as the spec states it, fails on the empty string: a response whose
    [username] element is empty gives a record whose username is the empty
    string, which is not [None], and [get_user] returns that record. *)
Lemma get_user_returns_empty_username :
  let stream := [StartElement "username" []; EndElement "username" ""] in
  let user := setattr (new UserInfo (PyConn (apiconn (this default_client))))
                "username" (PyStr "") in
  fst (get_user (answering stream) "ghost" default_client) = inr (Some user) /\
  getattr user "username" = inr (PyStr "").
Proof. split; reflexivity. Qed.

(** C2: when [get_user] gives an absent result for the username,
    [connection_for] fails, on reading the access key of the absent result
    (the failure the spec calls UnknownUserKind).  The transport has by then
    done one thing only, the get-user request on the admin connection: no
    connection for the per-user path is configured and nothing is sent
    to it. *)
Theorem connection_for_unknown_user service w username kwargs :
  fst (get_user service username w) = inr None ->
  fst (connection_for service username kwargs w) =
    inl (AttributeError "NoneType" "accesskey") /\
  wire (snd (connection_for service username kwargs w)) =
    (wire w ++ [Requested (apiconn (this w)) "DescribeUser"
                  {[ "Name" := PyStr username ]}])%list /\
  (path (apiconn (this w)) = "/services/Admin" ->
   Forall (fun e => event_path e <> "/services/Cloud")
     (drop (length (wire w))
        (wire (snd (connection_for service username kwargs w))))).
Proof.
  intros Habsent.
  pose proof (get_user_world service w username) as Hw.
  unfold connection_for, bind.
  destruct (get_user service username w) as [[e|[user|]] w'];
    cbn in Habsent; try discriminate.
  cbn in Hw. subst w'. cbn.
  split; [done|]. split; [done|].
  intros Hpath. rewrite drop_app_length.
  constructor; [|constructor]. cbn. by rewrite Hpath.
Qed.

Lemma connection_for_unknown_user_witness :
  let service := answering [StartElement "return" []; EndElement "return" "false"] in
  fst (connection_for service "ghost" [] default_client) =
    inl (AttributeError "NoneType" "accesskey") /\
  wire (snd (connection_for service "ghost" [] default_client)) =
    (wire default_client ++
       [Requested (apiconn (this default_client)) "DescribeUser"
          {[ "Name" := PyStr "ghost" ]}])%list /\
  (path (apiconn (this default_client)) = "/services/Admin" ->
   Forall (fun e => event_path e <> "/services/Cloud")
     (drop (length (wire default_client))
        (wire (snd (connection_for service "ghost" [] default_client))))).
Proof.
  intros service.
  apply (connection_for_unknown_user service default_client "ghost" []).
  reflexivity.
Defined.

(** For contrast: a user that resolves with both keys gets a connection, and
    the per-user path then does appear on the wire. *)
Lemma connection_for_known_user :
  let service :=
    answering [EndElement "username" "alice"; EndElement "accesskey" "ak";
               EndElement "secretkey" "sk"] in
  exists c,
    connection_for service "alice" [] default_client =
      (inr c, {| this := this default_client;
                 wire := (wire default_client ++
                   [Requested (apiconn (this default_client)) "DescribeUser"
                      {[ "Name" := PyStr "alice" ]};
                    Connected c])%list |}) /\
    path c = "/services/Cloud" /\
    aws_access_key_id c = PyStr "ak" /\
    aws_secret_access_key c = PyStr "sk".
Proof.
  exists (ec2_connection (PyStr "ak") (PyStr "sk") false
            {| region_connection := None;
               region_name := "nova";
               region_endpoint := "127.0.0.1" |}
            8773 "/services/Cloud" []).
  repeat split.
Qed.

(** C7: adding and removing a role are the shared modify-role operation with
    the operation kind [add], respectively [remove]; that operation is one
    status-shaped call of [ModifyUserRole] whose parameters carry the kind
    in the field [Operation], so both produce a status. *)
Theorem role_operations_shared service user role project :
  add_user_role service user role project =
    modify_user_role service user role project "add" [] /\
  remove_user_role service user role project =
    modify_user_role service user role project "remove" [] /\
  forall operation kwargs w,
    modify_user_role service user role project operation kwargs w =
      get_status service (apiconn (this w)) "ModifyUserRole"
        (<[ "User" := PyStr user ]> (<[ "Role" := PyStr role ]>
           (<[ "Project" := project ]>
              {[ "Operation" := PyStr operation ]}))) w /\
    (<[ "User" := PyStr user ]> (<[ "Role" := PyStr role ]>
       (<[ "Project" := project ]>
          ({[ "Operation" := PyStr operation ]} : gmap string pyval))))
      !! "Operation" = Some (PyStr operation).
Proof.
  split; [done|]. split; [done|].
  intros operation kwargs w. split; [done|].
  by rewrite !lookup_insert_ne, lookup_singleton_eq.
Qed.

(** C9: no facade operation writes to the client: after any call, returned
    or raised, the controller address, the region, the two keys and the
    admin connection of the instance are what they were before it. *)
Theorem facade_keeps_configuration service (op : facade_op) w :
  this (world_after service op w) = this w /\
  clc_ip (this (world_after service op w)) = clc_ip (this w) /\
  region (this (world_after service op w)) = region (this w) /\
  access (this (world_after service op w)) = access (this w) /\
  secret (this (world_after service op w)) = secret (this w) /\
  apiconn (this (world_after service op w)) = apiconn (this w).
Proof.
  assert (Hthis : this (world_after service op w) = this w).
  { destruct op; cbn [world_after];
      rewrite ?connection_for_this, ?get_user_world, ?get_project_world,
        ?get_zip_world, ?has_user_world; try done;
      unfold add_user_role, remove_user_role, modify_user_role,
        modify_project_user, get_users, get_projects, get_hosts,
        create_user, delete_user, create_project, delete_project,
        bind, get_self;
      by rewrite ?get_object_world, ?get_list_world, ?get_status_world. }
  by rewrite Hthis.
Qed.

(** C4: modelled from the spec.  On a response whose first [return]
    element has the text [true], in any mix of upper and lower case, the
    status-shaped call yields [true]; when that text is [false], in any mix
    of cases, it yields [false]; when the response has no [return] element
    it fails with MissingStatus instead of yielding [false].  Modify-role
    and modify-project-membership are this call, on [ModifyUserRole] and
    [ModifyProjectUser], and return what it returns. *)
Theorem status_shape service w action params stream :
  service (wire w) (apiconn (this w)) action params = Document stream ->
  (forall pre value post,
     stream = (pre ++ EndElement "return" value :: post)%list ->
     (forall v, ~ In (EndElement "return" v) pre) ->
     true_text value ->
     fst (get_status service (apiconn (this w)) action params w) = inr true) /\
  (forall pre value post,
     stream = (pre ++ EndElement "return" value :: post)%list ->
     (forall v, ~ In (EndElement "return" v) pre) ->
     false_text value ->
     fst (get_status service (apiconn (this w)) action params w) = inr false) /\
  ((forall value, ~ In (EndElement "return" value) stream) ->
     fst (get_status service (apiconn (this w)) action params w)
       = inl MissingStatus) /\
  (forall user role project operation kwargs,
     action = "ModifyUserRole" ->
     params = <[ "User" := PyStr user ]> (<[ "Role" := PyStr role ]>
                (<[ "Project" := project ]>
                   {[ "Operation" := PyStr operation ]})) ->
     modify_user_role service user role project operation kwargs w =
       get_status service (apiconn (this w)) action params w) /\
  (forall user project operation kwargs,
     action = "ModifyProjectUser" ->
     params = <[ "User" := PyStr user ]> (<[ "Project" := PyStr project ]>
                {[ "Operation" := PyStr operation ]}) ->
     modify_project_user service user project operation kwargs w =
       get_status service (apiconn (this w)) action params w).
Proof.
  intros Hresp.
  pose proof (get_status_Document service _ _ _ _ _ Hresp) as Hst.
  repeat split.
  - intros pre value post -> Hfirst Htext. rewrite Hst. cbn [fst].
    unfold decode_status.
    by rewrite (status_text_first _ _ _ Hfirst), (lower_true_text _ Htext).
  - intros pre value post -> Hfirst Htext. rewrite Hst. cbn [fst].
    unfold decode_status.
    by rewrite (status_text_first _ _ _ Hfirst), (lower_false_text _ Htext).
  - intros Hno. rewrite Hst. cbn [fst].
    unfold decode_status. by rewrite (status_text_None _ Hno).
  - by intros user role project operation kwargs -> ->.
  - by intros user project operation kwargs -> ->.
Qed.

Lemma status_shape_witness :
  let answer text :=
    answering [StartElement "ModifyProjectUserResponse" [];
               StartElement "return" []; EndElement "return" text;
               EndElement "ModifyProjectUserResponse" ""] in
  fst (modify_project_user (answer "True") "alice" "apollo" "add" []
         default_client) = inr true /\
  fst (modify_project_user (answer "FALSE") "alice" "apollo" "remove" []
         default_client) = inr false.
Proof.
  intros answer.
  pose (params := fun operation : string =>
          (<[ "User" := PyStr "alice" ]> (<[ "Project" := PyStr "apollo" ]>
             {[ "Operation" := PyStr operation ]}) : gmap string pyval)).
  split.
  - destruct (status_shape (answer "True") default_client "ModifyProjectUser"
                (params "add") _ eq_refl) as (Htrue & _ & _ & _ & Hproject).
    rewrite (Hproject "alice" "apollo" "add" [] eq_refl eq_refl).
    apply (Htrue [StartElement "ModifyProjectUserResponse" [];
                  StartElement "return" []] "True"
                 [EndElement "ModifyProjectUserResponse" ""]).
    + reflexivity.
    + intros v [H|[H|[]]]; discriminate.
    + exists "T"%char, "r"%char, "u"%char, "e"%char. auto 10.
  - destruct (status_shape (answer "FALSE") default_client "ModifyProjectUser"
                (params "remove") _ eq_refl) as (_ & Hfalse & _ & _ & Hproject).
    rewrite (Hproject "alice" "apollo" "remove" [] eq_refl eq_refl).
    apply (Hfalse [StartElement "ModifyProjectUserResponse" [];
                   StartElement "return" []] "FALSE"
                  [EndElement "ModifyProjectUserResponse" ""]).
    + reflexivity.
    + intros v [H|[H|[]]]; discriminate.
    + exists "F"%char, "A"%char, "L"%char, "S"%char, "E"%char. auto 10.
Defined.

(** The three outcomes on closed documents. *)
Example decode_status_examples :
  decode_status [StartElement "return" []; EndElement "return" "True"]
    = inr true /\
  decode_status [StartElement "return" []; EndElement "return" "FALSE"]
    = inr false /\
  decode_status [StartElement "requestId" []; EndElement "requestId" "7"]
    = inl MissingStatus.
Proof. repeat split. Qed.

(** C8: the credential-bundle operation decodes the response as a single
    UserInfo and returns what that record holds in [file], the decoded
    bytes of the last [file] element, not the record. *)
Theorem get_zip_returns_blob service w username stream value :
  service (wire w) (apiconn (this w)) "GenerateX509ForUser"
    {[ "Name" := PyStr username ]} = Document stream ->
  file_texts_ok stream ->
  last_text "file" stream = Some value ->
  exists user bs,
    decode_single stream UserInfo (PyConn (apiconn (this w))) = inr user /\
    base64.b64decode value = inr bs /\
    getattr user "file" = inr (PyBytes bs) /\
    fst (get_zip service username w) = inr (PyBytes bs).
Proof.
  intros Hresp Hok Hlast.
  destruct (decode_single_returns stream UserInfo (PyConn (apiconn (this w))))
    as [user Hdec]; [done|].
  destruct (feed_attributes _ _ _ _ Hdec) as [_ Hattr].
  specialize (Hattr "file"). rewrite Hlast in Hattr.
  destruct Hattr as (_ & Hfile & _).
  destruct (Hfile eq_refl) as (bs & Hbs & Hget).
  exists user, bs.
  assert (Hgetattr : getattr user "file" = inr (PyBytes bs)).
  { unfold getattr. by rewrite Hget. }
  repeat split; try done.
  unfold get_zip, bind, get_self.
  rewrite (get_object_Document _ _ _ _ _ _ _ Hresp), Hdec.
  unfold lift. by rewrite Hgetattr.
Qed.

Lemma get_zip_returns_blob_witness :
  let stream := [StartElement "username" []; EndElement "username" "alice";
                 StartElement "file" []; EndElement "file" "UEsDBA=="] in
  exists user bs,
    decode_single stream UserInfo (PyConn (apiconn (this default_client)))
      = inr user /\
    base64.b64decode "UEsDBA==" = inr bs /\
    getattr user "file" = inr (PyBytes bs) /\
    fst (get_zip (answering stream) "alice" default_client)
      = inr (PyBytes bs).
Proof.
  intros stream.
  apply (get_zip_returns_blob (answering stream) default_client "alice"
           stream "UEsDBA==").
  - reflexivity.
  - intros value Hin. cbn in Hin.
    destruct Hin as [H|[H|[H|[H|[]]]]]; try discriminate.
    injection H as <-. eexists. vm_compute. reflexivity.
  - reflexivity.
Defined.

(** C10: a freshly constructed UserInfo has the attributes [connection],
    [username] and [endpoint] and no other, so when the response has no
    [file] element the record has no attribute [file], and [get_zip] fails
    with the attribute error of that lookup instead of returning [None]. *)
Theorem get_zip_without_file service w username stream :
  service (wire w) (apiconn (this w)) "GenerateX509ForUser"
    {[ "Name" := PyStr username ]} = Document stream ->
  (forall value, ~ In (EndElement "file" value) stream) ->
  fst (get_zip service username w) = inl (AttributeError "UserInfo" "file") /\
  forall connection username' endpoint,
    dom (ob_dict (UserInfo__init__ connection username' endpoint)) =
      ({[ "connection"; "username"; "endpoint" ]} : gset string).
Proof.
  intros Hresp Hno. split.
  - destruct (decode_single_returns stream UserInfo
                (PyConn (apiconn (this w)))) as [user Hdec].
    { intros value Hin. by destruct (Hno value). }
    destruct (feed_attributes _ _ _ _ Hdec) as [Hty Hattr].
    specialize (Hattr "file"). rewrite (last_text_absent _ _ Hno) in Hattr.
    unfold get_zip, bind, get_self.
    rewrite (get_object_Document _ _ _ _ _ _ _ Hresp), Hdec.
    unfold lift, getattr. rewrite Hattr, Hty. done.
  - intros connection username' endpoint. cbn.
    rewrite !dom_insert_L, dom_empty_L. set_solver.
Qed.

Lemma get_zip_without_file_witness :
  let stream := [StartElement "username" []; EndElement "username" "alice"] in
  fst (get_zip (answering stream) "alice" default_client)
    = inl (AttributeError "UserInfo" "file") /\
  forall connection username' endpoint,
    dom (ob_dict (UserInfo__init__ connection username' endpoint)) =
      ({[ "connection"; "username"; "endpoint" ]} : gset string).
Proof.
  intros stream.
  apply (get_zip_without_file (answering stream) default_client "alice" stream).
  - reflexivity.
  - intros value Hin. cbn in Hin.
    destruct Hin as [H|[H|[]]]; discriminate.
Defined.




(** Items inside an item belong to the record of the outer item: one item
    holding two nested items gives one record. *)
Example nested_items_example :
  let root :=
    Element "hostSet" []
      [Element "item" []
         [Element "hostname" [] [] "node1";
          Element "item" [] [Element "bridge" [] [] "br0"] "";
          Element "item" [] [Element "bridge" [] [] "br1"] "inner"] ""] "" in
  let conn := PyConn (apiconn (this default_client)) in
  fst (get_hosts (answering (events root)) default_client) =
    inr [setattr (setattr (setattr (new HostInfo conn)
                             "hostname" (PyStr "node1"))
                    "bridge" (PyStr "br1"))
           "item" (PyStr "inner")].
Proof. reflexivity. Qed.

End Claims.

(** ** More on the records *)

Section Records.

Implicit Types (self u : pyobject) (stream : list sax_event).
Implicit Types (tag name value : string) (conn : pyval).

Lemma last_text_In tag stream value :
  last_text tag stream = Some value -> In (EndElement tag value) stream.
Proof.
  induction stream as [|[name attrs|name value'] rest IH]; cbn; intros Hlast.
  - discriminate.
  - right. by apply IH.
  - destruct (last_text tag rest) as [later|].
    + right. apply IH. congruence.
    + case_decide as Hname; [|discriminate].
      left. congruence.
Qed.

Lemma last_text_is_Some tag stream :
  is_Some (last_text tag stream) <->
  exists value, In (EndElement tag value) stream.
Proof.
  split.
  - intros [value Hlast]. exists value. by apply last_text_In.
  - intros [value Hin].
    destruct (last_text tag stream) as [later|] eqn:Hlast; [by eexists|].
    by destruct (last_text_None _ _ Hlast value).
Qed.

Lemma user_text_tag_dec tag : {user_text_tag tag} + {~ user_text_tag tag}.
Proof.
  unfold user_text_tag.
  destruct (decide (tag = "username")); [by left; left|].
  destruct (decide (tag = "accesskey")); [by left; right; left|].
  destruct (decide (tag = "secretkey")); [by left; right; right|].
  right. by intros [?|[?|?]].
Qed.

(** What is assigned is determined by the class, the tag and the text. *)
Lemma assigned_functional cls old tag value got got' :
  assigned cls old tag value got ->
  assigned cls old tag value got' ->
  got = got'.
Proof.
  destruct cls; cbn; [|congruence..].
  intros (Htext & Hfile & Hrest) (Htext' & Hfile' & Hrest').
  destruct (user_text_tag_dec tag) as [Ht|Ht].
  { by rewrite Htext, Htext'. }
  destruct (decide (tag = "file")) as [Hf|Hf].
  { destruct (Hfile Hf) as (bs & Hbs & ->).
    destruct (Hfile' Hf) as (bs' & Hbs' & ->). congruence. }
  by rewrite Hrest, Hrest'.
Qed.


(** X2: the decoded record depends on the stream only through the text of
    the last element of each tag: two streams that agree on that, whatever
    the order and the repetitions of their elements, decode to the same
    record. *)
Theorem decode_single_last_texts stream stream' cls conn u u' :
  (forall tag, last_text tag stream = last_text tag stream') ->
  decode_single stream cls conn = inr u ->
  decode_single stream' cls conn = inr u' ->
  u = u'.
Proof.
  intros Hsame Hdec Hdec'.
  destruct (feed_attributes _ _ _ _ Hdec) as [Hty Hattr].
  destruct (feed_attributes _ _ _ _ Hdec') as [Hty' Hattr'].
  destruct u as [ty d], u' as [ty' d']. cbn in *.
  assert (Hd : d = d').
  { apply map_eq. intros tag.
    specialize (Hattr tag). specialize (Hattr' tag).
    rewrite <- Hsame in Hattr'.
    destruct (last_text tag stream) as [value|].
    - by apply (assigned_functional _ _ _ _ _ _ Hattr Hattr').
    - congruence. }
  congruence.
Qed.

Lemma decode_single_last_texts_witness :
  setattr (setattr (setattr (new ProjectInfo PyNone)
                      "description" (PyStr "old"))
             "member_ids" (PyStr "7"))
    "description" (PyStr "new") =
  setattr (setattr (new ProjectInfo PyNone) "description" (PyStr "new"))
    "member_ids" (PyStr "7").
Proof.
  apply (decode_single_last_texts
           [EndElement "description" "old"; EndElement "member_ids" "7";
            EndElement "description" "new"]
           [StartElement "description" []; EndElement "description" "new";
            EndElement "member_ids" "7"]
           ProjectInfo PyNone).
  - intros tag. cbn [last_text]. repeat case_decide; congruence.
  - reflexivity.
  - reflexivity.
Defined.

(** The attribute names of the instances as constructed. *)
Lemma new_names cls conn tag :
  is_Some (ob_dict (new cls conn) !! tag) <->
  match cls with
  | UserInfo => tag = "connection" \/ tag = "username" \/ tag = "endpoint"
  | ProjectInfo =>
      tag = "connection" \/ tag = "projectname" \/ tag = "endpoint"
  | HostInfo => tag = "connection" \/ tag = "hostname"
  end.
Proof.
  destruct cls; cbn; rewrite !lookup_insert, lookup_empty;
    repeat case_decide; subst; split;
    try (intros _; by eauto 6);
    try (intros [v Hv]; discriminate);
    intros Hor; exfalso;
    repeat match goal with
           | H : _ \/ _ |- _ => destruct H
           end; congruence.
Qed.

(** X3: the attribute names of a decoded record.  A UserInfo has the three
    names of its constructor, and of [file], [accesskey] and [secretkey]
    those that occur in the stream, and never any other name; a ProjectInfo
    and a HostInfo have the names of their constructor and every tag of the
    stream. *)
Theorem decoded_attribute_names stream cls conn u tag :
  decode_single stream cls conn = inr u ->
  (is_Some (ob_dict u !! tag) <->
   match cls with
   | UserInfo =>
       (tag = "connection" \/ tag = "username" \/ tag = "endpoint") \/
       ((tag = "file" \/ tag = "accesskey" \/ tag = "secretkey") /\
        exists value, In (EndElement tag value) stream)
   | ProjectInfo =>
       (tag = "connection" \/ tag = "projectname" \/ tag = "endpoint") \/
       exists value, In (EndElement tag value) stream
   | HostInfo =>
       (tag = "connection" \/ tag = "hostname") \/
       exists value, In (EndElement tag value) stream
   end).
Proof.
  intros Hdec.
  destruct (feed_attributes _ _ _ _ Hdec) as [_ Hattr].
  specialize (Hattr tag). rewrite new_type in Hattr.
  pose proof (new_names cls conn tag) as Hnew.
  pose proof (last_text_is_Some tag stream) as Hin.
  destruct (last_text tag stream) as [value|] eqn:Hlast.
  - assert (Hex : exists v, In (EndElement tag v) stream)
      by (apply Hin; eauto).
    destruct cls; cbn in Hattr.
    + destruct Hattr as (Htext & Hfile & Hrest).
      destruct (user_text_tag_dec tag) as [Ht|Ht].
      { rewrite (Htext Ht). unfold user_text_tag in Ht.
        split; [|by eauto]. intros _.
        destruct Ht as [Ht|[Ht|Ht]]; subst tag;
          [left; by eauto | right; by eauto | right; by eauto]. }
      destruct (decide (tag = "file")) as [Hf|Hf].
      { destruct (Hfile Hf) as (bs & _ & ->).
        split; [|by eauto]. intros _. right. eauto. }
      rewrite (Hrest Ht Hf), Hnew. unfold user_text_tag in Ht.
      split; [by left|]. intros [H|[[H|[H|H]] _]]; [done|..]; subst;
        exfalso; auto.
    + rewrite Hattr. split; eauto.
    + rewrite Hattr. split; eauto.
  - assert (Hno : ~ exists v, In (EndElement tag v) stream).
    { intros Hex. apply Hin in Hex. by destruct Hex. }
    rewrite Hattr, Hnew. destruct cls; tauto.
Qed.

Lemma decoded_attribute_names_witness :
  let stream := [EndElement "username" "alice"; EndElement "accesskey" "ak";
                 EndElement "email" "a@b"] in
  let user := setattr (setattr (new UserInfo PyNone) "username" (PyStr "alice"))
                "accesskey" (PyStr "ak") in
  is_Some (ob_dict user !! "email") <->
  ("email" = "connection" \/ "email" = "username" \/ "email" = "endpoint") \/
  (("email" = "file" \/ "email" = "accesskey" \/ "email" = "secretkey") /\
   exists value, In (EndElement "email" value) stream).
Proof.
  intros stream user.
  apply (decoded_attribute_names stream UserInfo PyNone user "email").
  reflexivity.
Defined.

(** X4: [repr] of a decoded record never fails: it is the class prefix
    followed by the text of the last [username] element for a UserInfo, the
    last [projectname] element for a ProjectInfo and the last [hostname]
    element for a HostInfo, or by [None] when the stream has no such
    element. *)
Theorem repr_decoded render stream cls conn u :
  decode_single stream cls conn = inr u ->
  repr render u =
    inr (match cls with
         | UserInfo => "UserInfo:" ++ shown (last_text "username" stream)
         | ProjectInfo =>
             "ProjectInfo:" ++ shown (last_text "projectname" stream)
         | HostInfo => "Host:" ++ shown (last_text "hostname" stream)
         end).
Proof.
  intros Hdec.
  destruct (feed_attributes _ _ _ _ Hdec) as [Hty Hattr].
  rewrite new_type in Hty, Hattr.
  unfold repr, UserInfo__repr__, ProjectInfo__repr__, HostInfo__repr__,
    getattr.
  rewrite Hty. destruct cls.
  - specialize (Hattr "username").
    destruct (last_text "username" stream) as [value|].
    + destruct Hattr as [Htext _]. rewrite Htext; [done|by left].
    + by rewrite Hattr.
  - specialize (Hattr "projectname").
    destruct (last_text "projectname" stream) as [value|]; by rewrite Hattr.
  - specialize (Hattr "hostname").
    destruct (last_text "hostname" stream) as [value|]; by rewrite Hattr.
Qed.

Lemma repr_decoded_witness :
  repr (fun _ => "?")
    (setattr (setattr (new HostInfo PyNone) "hostname" (PyStr "node1"))
       "disk" (PyStr "80")) =
  inr ("Host:" ++ shown (last_text "hostname"
                           [EndElement "hostname" "node1";
                            EndElement "disk" "80"])).
Proof.
  apply (repr_decoded (fun _ => "?")
           [EndElement "hostname" "node1"; EndElement "disk" "80"]
           HostInfo PyNone).
  reflexivity.
Defined.

(** X5: a UserInfo keeps the connection it was decoded on and its endpoint
    stays [None], whatever the response contains, elements named
    [connection] or [endpoint] included; in a ProjectInfo or a HostInfo an
    element named [connection] replaces the back-reference by its text. *)
Theorem back_reference stream cls conn u :
  decode_single stream cls conn = inr u ->
  match cls with
  | UserInfo =>
      getattr u "connection" = inr conn /\ getattr u "endpoint" = inr PyNone
  | ProjectInfo | HostInfo =>
      getattr u "connection" =
        inr (match last_text "connection" stream with
             | Some value => PyStr value
             | None => conn
             end)
  end.
Proof.
  intros Hdec.
  destruct (feed_attributes _ _ _ _ Hdec) as [_ Hattr].
  rewrite new_type in Hattr. unfold getattr.
  assert (Hkeep : forall tag, cls = UserInfo ->
            ~ user_text_tag tag -> tag <> "file" ->
            ob_dict u !! tag = ob_dict (new cls conn) !! tag).
  { intros tag -> Ht Hf. specialize (Hattr tag).
    destruct (last_text tag stream); [|done].
    destruct Hattr as (_ & _ & Hrest). by apply Hrest. }
  destruct cls.
  - rewrite !Hkeep; try done; by intros [?|[?|?]].
  - specialize (Hattr "connection").
    destruct (last_text "connection" stream); by rewrite Hattr.
  - specialize (Hattr "connection").
    destruct (last_text "connection" stream); by rewrite Hattr.
Qed.

Lemma back_reference_witness :
  getattr (setattr (new ProjectInfo (PyStr "admin connection"))
             "connection" (PyStr "overwritten")) "connection" =
  inr (match last_text "connection" [EndElement "connection" "overwritten"] with
       | Some value => PyStr value
       | None => PyStr "admin connection"
       end).
Proof.
  apply (back_reference [EndElement "connection" "overwritten"] ProjectInfo
           (PyStr "admin connection")).
  reflexivity.
Defined.

End Records.

(** ** More on the facade *)

Section Operations.

Implicit Types (service : remote) (w : world) (stream : list sax_event).




(** X7: [has_user] answers whether the response carries a [username]
    element: [True] when it does, whatever the text and whatever name was
    asked for, [False] when it does not; it raises only when decoding
    does. *)
Theorem has_user_iff_username_element service w username stream :
  service (wire w) (apiconn (this w)) "DescribeUser"
    {[ "Name" := PyStr username ]} = Document stream ->
  file_texts_ok stream ->
  fst (has_user service username w) =
    inr (match last_text "username" stream with
         | Some _ => true
         | None => false
         end).
Proof.
  intros Hresp Hok.
  destruct (decode_single_returns stream UserInfo
              (PyConn (apiconn (this w)))) as [user Hdec]; [done|].
  pose proof (get_user_Document _ _ _ _ Hresp) as Hget.
  rewrite Hdec in Hget. cbn [rbind] in Hget.
  destruct (feed_attributes _ _ _ _ Hdec) as [_ Hattr].
  specialize (Hattr "username"). unfold getattr in Hget.
  unfold has_user, bind.
  destruct (get_user service username w) as [r w'] eqn:Hrun.
  cbn [fst] in Hget. subst r.
  destruct (last_text "username" stream) as [value|].
  - destruct Hattr as [Htext _]. rewrite Htext by (by left). done.
  - rewrite Hattr. done.
Qed.

Lemma has_user_iff_username_element_witness :
  let stream := [EndElement "username" "bob"] in
  fst (has_user (answering stream) "alice" default_client) =
    inr (match last_text "username" stream with
         | Some _ => true
         | None => false
         end).
Proof.
  intros stream.
  apply (has_user_iff_username_element (answering stream) default_client
           "alice" stream).
  - reflexivity.
  - intros value [H|[]]. discriminate.
Defined.

(** What [connection_for] does once the user record is known. *)
Lemma connection_for_Document service w username kwargs stream user :
  service (wire w) (apiconn (this w)) "DescribeUser"
    {[ "Name" := PyStr username ]} = Document stream ->
  decode_single stream UserInfo (PyConn (apiconn (this w))) = inr user ->
  forall value, last_text "username" stream = Some value ->
  connection_for service username kwargs w =
    bind (lift (getattr user "accesskey"))
      (fun accesskey =>
         bind (lift (getattr user "secretkey"))
           (fun secretkey =>
              bind get_self
                (fun self =>
                   if kwargs_clash kwargs then throw multiple_values
                   else
                     connect_ec2 accesskey secretkey false
                       {| region_connection := None;
                          region_name := region self;
                          region_endpoint := clc_ip self |}
                       8773 "/services/Cloud" kwargs)))
      (sent w (apiconn (this w)) "DescribeUser" {[ "Name" := PyStr username ]}).
Proof.
  intros Hresp Hdec value Hlast.
  assert (Hget : fst (get_user service username w) = inr (Some user)).
  { rewrite (get_user_Document _ _ _ _ Hresp), Hdec. cbn [rbind].
    destruct (feed_attributes _ _ _ _ Hdec) as [_ Hattr].
    specialize (Hattr "username"). rewrite Hlast in Hattr.
    destruct Hattr as [Htext _]. unfold getattr.
    by rewrite Htext by (by left). }
  pose proof (get_user_world service w username) as Hw.
  unfold connection_for.
  unfold bind at 1.
  destruct (get_user service username w) as [r w'].
  cbn [fst snd] in Hget, Hw. by subst r w'.
Qed.

(** X8: for a user whose response decodes and carries [username],
    [accesskey] and [secretkey].  When no key of [kwargs] repeats a keyword
    the call of [boto.connect_ec2] writes out, [connection_for] returns a
    connection with that user's two keys, the client's region and
    controller address, port 8773, no TLS and the path [/services/Cloud],
    passing [kwargs] on, and the transport has sent the get-user request
    and then configured that connection.  When a key of [kwargs] repeats
    such a keyword, the call raises a type error and no connection is
    configured. *)
Theorem connection_for_resolved service w username kwargs stream
  name accesskey secretkey :
  service (wire w) (apiconn (this w)) "DescribeUser"
    {[ "Name" := PyStr username ]} = Document stream ->
  file_texts_ok stream ->
  last_text "username" stream = Some name ->
  last_text "accesskey" stream = Some accesskey ->
  last_text "secretkey" stream = Some secretkey ->
  let c := {| aws_access_key_id := PyStr accesskey;
              aws_secret_access_key := PyStr secretkey;
              is_secure := false;
              conn_region := {| region_connection := None;
                                region_name := region (this w);
                                region_endpoint := clc_ip (this w) |};
              port := 8773;
              path := "/services/Cloud";
              APIVersion := None;
              conn_kwargs := kwargs |} in
  ((forall key value, In (key, value) kwargs -> ~ In key connect_keywords) ->
   connection_for service username kwargs w =
     (inr c,
      {| this := this w;
         wire := (wire w ++
                  [Requested (apiconn (this w)) "DescribeUser"
                     {[ "Name" := PyStr username ]};
                   Connected c])%list |})) /\
  (forall key value,
     In (key, value) kwargs -> In key connect_keywords ->
     connection_for service username kwargs w =
       (inl multiple_values,
        sent w (apiconn (this w)) "DescribeUser"
          {[ "Name" := PyStr username ]})).
Proof.
  intros Hresp Hok Hname Hak Hsk c.
  destruct (decode_single_returns stream UserInfo
              (PyConn (apiconn (this w)))) as [user Hdec]; [done|].
  rewrite (connection_for_Document _ _ _ _ _ _ Hresp Hdec _ Hname).
  destruct (feed_attributes _ _ _ _ Hdec) as [_ Hattr].
  pose proof (Hattr "accesskey") as Ha. rewrite Hak in Ha.
  pose proof (Hattr "secretkey") as Hs. rewrite Hsk in Hs.
  destruct Ha as [Ha _]. destruct Hs as [Hs _].
  unfold bind, lift, getattr.
  rewrite Ha by (right; by left). rewrite Hs by (right; by right).
  cbn. split.
  - intros Hfree. rewrite (proj2 (kwargs_clash_false kwargs) Hfree).
    cbn. unfold sent. cbn. by rewrite <- app_assoc.
  - intros key value Hin Hkey.
    by rewrite (proj2 (kwargs_clash_true kwargs) (ex_intro _ key
                  (ex_intro _ value (conj Hin Hkey)))).
Qed.

Lemma connection_for_resolved_witness :
  let stream := [EndElement "username" "alice"; EndElement "accesskey" "ak";
                 EndElement "secretkey" "sk"] in
  let c := {| aws_access_key_id := PyStr "ak";
              aws_secret_access_key := PyStr "sk";
              is_secure := false;
              conn_region := {| region_connection := None;
                                region_name := region (this default_client);
                                region_endpoint :=
                                  clc_ip (this default_client) |};
              port := 8773;
              path := "/services/Cloud";
              APIVersion := None;
              conn_kwargs := [("debug", PyStr "2")] |} in
  connection_for (answering stream) "alice" [("debug", PyStr "2")]
    default_client =
    (inr c,
     {| this := this default_client;
        wire := (wire default_client ++
                 [Requested (apiconn (this default_client)) "DescribeUser"
                    {[ "Name" := PyStr "alice" ]};
                  Connected c])%list |}) /\
  connection_for (answering stream) "alice" [("port", PyStr "80")]
    default_client =
    (inl multiple_values,
     sent default_client (apiconn (this default_client)) "DescribeUser"
       {[ "Name" := PyStr "alice" ]}).
Proof.
  intros stream c.
  assert (Hok : file_texts_ok stream).
  { intros value [H|[H|[H|[]]]]; discriminate. }
  split.
  - destruct (connection_for_resolved (answering stream) default_client
                "alice" [("debug", PyStr "2")] stream "alice" "ak" "sk"
                eq_refl Hok eq_refl eq_refl eq_refl) as [Hfree _].
    apply Hfree.
    intros key value [H|[]]. injection H as <- _.
    cbn. intros [H|[H|[H|[H|[H|[H|[]]]]]]]; discriminate.
  - destruct (connection_for_resolved (answering stream) default_client
                "alice" [("port", PyStr "80")] stream "alice" "ak" "sk"
                eq_refl Hok eq_refl eq_refl eq_refl) as [_ Hclash].
    apply (Hclash "port" (PyStr "80")).
    + by left.
    + cbn. auto 10.
Defined.

(** X9: a user that resolves but whose response lacks a key cannot be
    connected for: without an [accesskey] element [connection_for] fails on
    reading that attribute of the record, with it but without a [secretkey]
    element on reading that one; in both cases no connection is configured
    and the get-user request is all the transport has done. *)
Theorem connection_for_missing_key service w username kwargs stream name :
  service (wire w) (apiconn (this w)) "DescribeUser"
    {[ "Name" := PyStr username ]} = Document stream ->
  file_texts_ok stream ->
  last_text "username" stream = Some name ->
  (last_text "accesskey" stream = None ->
     connection_for service username kwargs w =
       (inl (AttributeError "UserInfo" "accesskey"),
        sent w (apiconn (this w)) "DescribeUser"
          {[ "Name" := PyStr username ]})) /\
  (forall accesskey,
     last_text "accesskey" stream = Some accesskey ->
     last_text "secretkey" stream = None ->
     connection_for service username kwargs w =
       (inl (AttributeError "UserInfo" "secretkey"),
        sent w (apiconn (this w)) "DescribeUser"
          {[ "Name" := PyStr username ]})).
Proof.
  intros Hresp Hok Hname.
  destruct (decode_single_returns stream UserInfo
              (PyConn (apiconn (this w)))) as [user Hdec]; [done|].
  rewrite (connection_for_Document _ _ _ _ _ _ Hresp Hdec _ Hname).
  destruct (feed_attributes _ _ _ _ Hdec) as [Hty Hattr].
  rewrite new_type in Hty.
  unfold bind, lift, getattr. rewrite Hty. split.
  - intros Hak. pose proof (Hattr "accesskey") as Ha. rewrite Hak in Ha.
    by rewrite Ha.
  - intros accesskey Hak Hsk.
    pose proof (Hattr "accesskey") as Ha. rewrite Hak in Ha.
    pose proof (Hattr "secretkey") as Hs. rewrite Hsk in Hs.
    destruct Ha as [Ha _]. rewrite Ha by (right; by left).
    by rewrite Hs.
Qed.

Lemma connection_for_missing_key_witness :
  let stream := [EndElement "username" "alice"; EndElement "accesskey" "ak"] in
  (last_text "accesskey" stream = None ->
     connection_for (answering stream) "alice" [] default_client =
       (inl (AttributeError "UserInfo" "accesskey"),
        sent default_client (apiconn (this default_client)) "DescribeUser"
          {[ "Name" := PyStr "alice" ]})) /\
  (forall accesskey,
     last_text "accesskey" stream = Some accesskey ->
     last_text "secretkey" stream = None ->
     connection_for (answering stream) "alice" [] default_client =
       (inl (AttributeError "UserInfo" "secretkey"),
        sent default_client (apiconn (this default_client)) "DescribeUser"
          {[ "Name" := PyStr "alice" ]})).
Proof.
  intros stream.
  apply (connection_for_missing_key (answering stream) default_client "alice"
           [] stream "alice"); try reflexivity.
  intros value [H|[H|[]]]; discriminate.
Defined.

Ltac run_facade_op :=
  unfold error_of, connection_for, has_user, get_user, get_users, create_user,
    delete_user, add_user_role, remove_user_role, modify_user_role,
    get_projects, get_project, create_project, delete_project,
    modify_project_user, get_zip, get_hosts, get_object, get_list, get_status,
    bind, get_self, make_request.

(** X10: no facade operation masks a failure of its round trip.  When the
    transport delivers no response, the operation raises the transport's
    failure unchanged; when the body is not well-formed XML, it raises the
    reader's error; in neither case does it return a value. *)
Theorem round_trip_failures_propagate service (op : facade_op) w :
  (forall info,
     (forall action params,
        service (wire w) (apiconn (this w)) action params = NoResponse info) ->
     raised service op w = Some (TransportFailure info)) /\
  ((forall action params,
      service (wire w) (apiconn (this w)) action params = NotWellFormed) ->
   raised service op w = Some MalformedResponse).
Proof.
  split.
  - intros info Hall. destruct op; cbn [raised]; run_facade_op;
      by rewrite Hall.
  - intros Hall. destruct op; cbn [raised]; run_facade_op;
      by rewrite Hall.
Qed.

Lemma round_trip_failures_propagate_witness :
  raised (unreachable "connection refused") (call_get_zip "alice")
    default_client = Some (TransportFailure "connection refused") /\
  raised garbled (call_has_user "alice") default_client
    = Some MalformedResponse.
Proof.
  split.
  - apply (round_trip_failures_propagate (unreachable "connection refused")
             (call_get_zip "alice") default_client).
    reflexivity.
  - apply (round_trip_failures_propagate garbled (call_has_user "alice")
             default_client).
    reflexivity.
Defined.

(** The transport activity of [connection_for]. *)
Lemma connection_for_wire service w username kwargs :
  wire (snd (connection_for service username kwargs w)) =
    (wire w ++
     Requested (apiconn (this w)) "DescribeUser" {[ "Name" := PyStr username ]}
     :: match fst (connection_for service username kwargs w) with
        | inr c => [Connected c]
        | inl _ => []
        end)%list /\
  forall c, fst (connection_for service username kwargs w) = inr c ->
            path c = "/services/Cloud".
Proof.
  unfold connection_for, bind.
  pose proof (get_user_world service w username) as Hw.
  destruct (get_user service username w) as [[e|user] w'];
    cbn [snd] in Hw; subst w'; [done|].
  unfold lift.
  destruct (getattr_opt user "accesskey") as [e|accesskey]; [done|].
  destruct (getattr_opt user "secretkey") as [e|secretkey]; [done|].
  unfold get_self. destruct (kwargs_clash kwargs); cbn; [done|].
  split; [by rewrite <- app_assoc|]. by intros c [= <-].
Qed.

(** The transport activity of every operation. *)
Lemma world_after_wire service (op : facade_op) w :
  exists action params,
    wire (world_after service op w) =
      (wire w ++
       Requested (apiconn (this w)) action params
       :: match op with
          | call_connection_for username kwargs =>
              match fst (connection_for service username kwargs w) with
              | inr c => [Connected c]
              | inl _ => []
              end
          | _ => []
          end)%list.
Proof.
  destruct op; cbn [world_after];
    try (unfold add_user_role, remove_user_role, modify_user_role,
           modify_project_user, get_users, get_projects, get_hosts,
           create_user, delete_user, create_project, delete_project,
           bind, get_self);
    rewrite ?get_user_world, ?get_project_world, ?get_zip_world,
      ?has_user_world, ?get_object_world, ?get_list_world, ?get_status_world;
    try (by eexists _, _).
  eexists _, _. apply connection_for_wire.
Qed.

(** X11: every facade operation is exactly one round trip on the admin
    connection: whether it returns or raises, the transport has sent one
    request over [self.apiconn] and nothing else, except that
    [connection_for], when it returns, has also configured the connection it
    returns. *)
Theorem one_round_trip service (op : facade_op) w :
  this (world_after service op w) = this w /\
  exists action params,
    wire (world_after service op w) =
      (wire w ++
       Requested (apiconn (this w)) action params
       :: match op with
          | call_connection_for username kwargs =>
              match fst (connection_for service username kwargs w) with
              | inr c => [Connected c]
              | inl _ => []
              end
          | _ => []
          end)%list.
Proof.
  split; [|apply world_after_wire].
  destruct op; cbn [world_after];
    rewrite ?connection_for_this, ?get_user_world, ?get_project_world,
      ?get_zip_world, ?has_user_world; try done;
    unfold add_user_role, remove_user_role, modify_user_role,
      modify_project_user, get_users, get_projects, get_hosts,
      create_user, delete_user, create_project, delete_project,
      bind, get_self;
    by rewrite ?get_object_world, ?get_list_world, ?get_status_world.
Qed.

(** X12: the constructor returns a client whenever no key of its [kwargs]
    repeats a keyword of its call of [boto.connect_ec2]; and on every client
    the constructor returns, whatever its arguments, every request of every
    operation goes to [/services/Admin] on port 8773 without TLS, under the
    constructor's access and secret key, to the constructor's region and
    controller address, with the API version [nova]; the only other
    transport activity is the [/services/Cloud] connection that
    [connection_for] configures. *)
Theorem requests_use_admin_endpoint service (op : facade_op)
  clc_ip region access_key secret_key kwargs before :
  ((forall key value, In (key, value) kwargs -> ~ In key connect_keywords) ->
   exists w,
     NovaAdminClient__init__ clc_ip region access_key secret_key kwargs before
       = inr w) /\
  forall w,
    NovaAdminClient__init__ clc_ip region access_key secret_key kwargs before
      = inr w ->
    Forall (fun e =>
              match e with
              | Requested c _ _ =>
                  path c = "/services/Admin" /\ port c = 8773%Z /\
                  is_secure c = false /\
                  aws_access_key_id c = PyStr access_key /\
                  aws_secret_access_key c = PyStr secret_key /\
                  region_name (conn_region c) = region /\
                  region_endpoint (conn_region c) = clc_ip /\
                  APIVersion c = Some "nova"
              | Connected c => path c = "/services/Cloud"
              end)
      (drop (length (wire w)) (wire (world_after service op w))).
Proof.
  unfold NovaAdminClient__init__. split.
  - intros Hfree. rewrite (proj2 (kwargs_clash_false kwargs) Hfree). eauto.
  - intros w Hinit.
    destruct (kwargs_clash kwargs); [discriminate|].
    injection Hinit as <-.
    set (w := admin_client clc_ip region access_key secret_key kwargs before).
    destruct (world_after_wire service op w) as (action & params & ->).
    rewrite drop_app_length. constructor; [done|].
    destruct op; try constructor.
    pose proof (connection_for_wire service w username kwargs0) as [_ Hpath].
    destruct (fst (connection_for service username kwargs0 w)) as [e|c];
      constructor; [by apply Hpath | constructor].
Qed.

Lemma requests_use_admin_endpoint_witness :
  NovaAdminClient__init__ "127.0.0.1" "nova" "admin" "admin" [] []
    = inr default_client /\
  Forall (fun e =>
            match e with
            | Requested c _ _ =>
                path c = "/services/Admin" /\ port c = 8773%Z /\
                is_secure c = false /\
                aws_access_key_id c = PyStr "admin" /\
                aws_secret_access_key c = PyStr "admin" /\
                region_name (conn_region c) = "nova" /\
                region_endpoint (conn_region c) = "127.0.0.1" /\
                APIVersion c = Some "nova"
            | Connected c => path c = "/services/Cloud"
            end)
    (drop (length (wire default_client))
       (wire (world_after (unreachable "down") call_get_hosts
                default_client))).
Proof.
  split; [reflexivity|].
  destruct (requests_use_admin_endpoint (unreachable "down") call_get_hosts
              "127.0.0.1" "nova" "admin" "admin" [] []) as [_ Hall].
  by apply Hall.
Defined.

(** X13: registering and deregistering a user return the decoded record as
    it is: unlike [get_user] they never give an absent result, and when the
    response has no [username] element the record they return has
    [username] still [None], where [get_user] on the same response gives
    the absent result. *)
Theorem create_delete_user_never_absent service w username stream :
  file_texts_ok stream ->
  exists user,
    decode_single stream UserInfo (PyConn (apiconn (this w))) = inr user /\
    (last_text "username" stream = None ->
       getattr user "username" = inr PyNone) /\
    (service (wire w) (apiconn (this w)) "RegisterUser"
       {[ "Name" := PyStr username ]} = Document stream ->
     fst (create_user service username w) = inr user) /\
    (service (wire w) (apiconn (this w)) "DeregisterUser"
       {[ "Name" := PyStr username ]} = Document stream ->
     fst (delete_user service username w) = inr user) /\
    (service (wire w) (apiconn (this w)) "DescribeUser"
       {[ "Name" := PyStr username ]} = Document stream ->
     last_text "username" stream = None ->
     fst (get_user service username w) = inr None).
Proof.
  intros Hok.
  destruct (decode_single_returns stream UserInfo
              (PyConn (apiconn (this w)))) as [user Hdec]; [done|].
  exists user. split; [done|].
  destruct (feed_attributes _ _ _ _ Hdec) as [_ Hattr].
  specialize (Hattr "username").
  assert (Hunset : last_text "username" stream = None ->
                   getattr user "username" = inr PyNone).
  { intros Hnone. rewrite Hnone in Hattr. unfold getattr. by rewrite Hattr. }
  split; [done|]. split; [|split].
  - intros Hresp. unfold create_user, bind, get_self.
    by rewrite (get_object_Document _ _ _ _ _ _ _ Hresp).
  - intros Hresp. unfold delete_user, bind, get_self.
    by rewrite (get_object_Document _ _ _ _ _ _ _ Hresp).
  - intros Hresp Hnone.
    rewrite (get_user_Document _ _ _ _ Hresp), Hdec. cbn [rbind].
    by rewrite (Hunset Hnone).
Qed.

Lemma create_delete_user_never_absent_witness :
  let stream := [EndElement "accesskey" "ak"; EndElement "secretkey" "sk"] in
  exists user,
    fst (create_user (answering stream) "alice" default_client) = inr user /\
    getattr user "username" = inr PyNone /\
    fst (get_user (answering stream) "alice" default_client) = inr None.
Proof.
  intros stream.
  destruct (create_delete_user_never_absent (answering stream) default_client
              "alice" stream)
    as (user & _ & Hunset & Hcreate & _ & Hget).
  { intros value [H|[H|[]]]; discriminate. }
  exists user. split; [by apply Hcreate|]. split.
  - by apply Hunset.
  - by apply Hget.
Defined.

End Operations.

(** ** nova/manager.py *)

Section Managers.

Context {DB : Type}.

Implicit Types (FLAGS : Flags) (import_object : string -> result DB).
Implicit Types (host db_driver : option string) (m : Manager DB).

Lemma or_flag_given (x : option string) (flag s : string) :
  x = Some s -> s <> "" -> or_flag x flag = s.
Proof.
  intros -> Hs. unfold or_flag, py_not. by rewrite bool_decide_eq_false_2.
Qed.

Lemma or_flag_missing (x : option string) (flag : string) :
  x = None \/ x = Some "" -> or_flag x flag = flag.
Proof. by intros [->| ->]. Qed.

Lemma or_flag_empty (x : option string) (flag : string) :
  or_flag x flag = "" -> flag = "".
Proof.
  unfold or_flag, py_not. destruct x as [s|]; [|done].
  case_bool_decide as Hs; [done|]. cbn. congruence.
Qed.

(** X14: a manager takes its host from the argument when that is a
    non-empty string and from the host flag when it is [None] or empty, so
    its host is empty only if the flag is; the driver name is chosen the
    same way between the argument and the driver flag, and the manager's
    driver is what importing that name gives.  Construction raises only
    what that import raises. *)
Theorem Manager_init_outcome FLAGS import_object host db_driver :
  (forall m,
     Manager__init__ FLAGS import_object host db_driver = inr m ->
     (forall h, host = Some h -> h <> "" -> manager_host m = h) /\
     (host = None \/ host = Some "" -> manager_host m = FLAGS_host FLAGS) /\
     (manager_host m = "" -> FLAGS_host FLAGS = "") /\
     (forall d, db_driver = Some d -> d <> "" ->
        import_object d = inr (manager_db m)) /\
     (db_driver = None \/ db_driver = Some "" ->
        import_object (FLAGS_db_driver FLAGS) = inr (manager_db m))) /\
  (forall e,
     Manager__init__ FLAGS import_object host db_driver = inl e ->
     (forall d, db_driver = Some d -> d <> "" -> import_object d = inl e) /\
     (db_driver = None \/ db_driver = Some "" ->
        import_object (FLAGS_db_driver FLAGS) = inl e)).
Proof.
  unfold Manager__init__. split.
  - intros m Hinit.
    destruct (import_object (or_flag db_driver (FLAGS_db_driver FLAGS)))
      as [e|db] eqn:Himp; cbn in Hinit; [discriminate|].
    injection Hinit as <-. cbn. repeat split.
    + intros h Hh Hne. by apply or_flag_given.
    + apply or_flag_missing.
    + apply or_flag_empty.
    + intros d Hd Hne. by rewrite (or_flag_given _ _ _ Hd Hne) in Himp.
    + intros Hd. by rewrite (or_flag_missing _ _ Hd) in Himp.
  - intros e Hinit.
    destruct (import_object (or_flag db_driver (FLAGS_db_driver FLAGS)))
      as [e'|db] eqn:Himp; cbn in Hinit; [|discriminate].
    injection Hinit as <-. split.
    + intros d Hd Hne. by rewrite (or_flag_given _ _ _ Hd Hne) in Himp.
    + intros Hd. by rewrite (or_flag_missing _ _ Hd) in Himp.
Qed.

End Managers.

Lemma Manager_init_outcome_witness :
  let FLAGS := {| FLAGS_host := "node0"; FLAGS_db_driver := "nova.db.api" |} in
  let import_object := fun name : string => (inr name : result string) in
  manager_host {| manager_host := "node0"; manager_db := "nova.db.api" |}
    = FLAGS_host FLAGS /\
  import_object (FLAGS_db_driver FLAGS) = inr "nova.db.api".
Proof.
  intros FLAGS import_object.
  destruct (Manager_init_outcome FLAGS import_object (Some "") None)
    as [Hok _].
  destruct (Hok {| manager_host := "node0"; manager_db := "nova.db.api" |}
              eq_refl) as (_ & Hhost & _ & _ & Hdriver).
  split; [apply Hhost|apply Hdriver]; auto.
Defined.
